(** * A shallow embedding of pydantic-collections

    The Python package [pydantic_collections] (modules [core],
    [external_utils], [sequence] and [mapping]) is modelled here:
    - Python values, classes and type annotations ([PyModel]);
    - the validation policy of [BaseCollectionModel] ([core.py]);
    - the list operations of [PydanticSequence] and the dict operations of
      [PydanticMapping], as state-passing functions that keep the mutated
      store also when an exception is raised, as Python does;
    - the reads, deletions and the stable [sort] of the sequence, the
      reads, deletions and the [root | data] merge of the mapping, and the
      delegation of [PersistentPydanticSequence] to its database;
    - the specialization cache [tp_cache] around
      [BaseCollectionModelMeta.__getitem__].
    The validation engine (pydantic) is not part of the package: its
    per-value validator is a parameter ([TypeAdapter]). *)

From Stdlib Require Import List ZArith String Bool Lia.
From Stdlib Require Import Sorting.Permutation Sorting.Sorted.
Import ListNotations.
Open Scope string_scope.
Open Scope list_scope.
Set Warnings "-register-all".

Module PyModel.

(** ** Python objects *)

(** Class objects are identified by a number. *)
Definition cls := nat.

Definition cls_object : cls := 0.
Definition cls_NoneType : cls := 1.
Definition cls_int : cls := 2.
Definition cls_str : cls := 3.
Definition cls_list : cls := 4.
Definition cls_dict : cls := 5.

(** The runtime values an element mutation can receive. *)
Inductive pyval :=
| VNone
| VInt (z : Z)
| VStr (s : string)
| VList (xs : list pyval)
| VDict (kv : list (string * pyval))
| VObj (c : cls) (fields : list (string * pyval)).

(** [type(v)] *)
Definition type_of (v : pyval) : cls :=
  match v with
  | VNone => cls_NoneType
  | VInt _ => cls_int
  | VStr _ => cls_str
  | VList _ => cls_list
  | VDict _ => cls_dict
  | VObj c _ => c
  end.

(** What [get_types_from_annotation] can yield: a class, or some other
    object (a special form such as [typing.Literal], or [None] when
    [get_origin] finds no origin). *)
Inductive tyobj :=
| TClass (c : cls)
| TNotClass (descr : string).

(** Type annotations: a plain class ([isinstance(tp, type)]), a union
    spelled [typing.Union[X, Y]] or [X | Y] (a [types.UnionType]), an alias
    of the [typing] module with an origin ([List[int]], [Literal["a"]],
    ...), a built-in generic alias ([list[int]], a [types.GenericAlias]),
    or an object without origin. *)
Inductive annot :=
| AClass (c : cls)
| AUnion (args : list annot)
| AUnionType (args : list annot)
| AAlias (origin : tyobj) (args : list annot)
| AGenericAlias (origin : tyobj) (args : list annot)
| ANoOrigin (descr : string).

(** Error locations: [tuple[int | str, ...]]. *)
Inductive locitem :=
| LInt (i : Z)
| LStr (s : string).

Definition loc := list locitem.

(** One structured error record, as [ErrorDetails]/[InitErrorDetails]:
    keys [type], [loc], [input] and [ctx] (here the [class] entry). *)
Record err := mkErr {
  err_type : string;
  err_loc : loc;
  err_input : pyval;
  err_ctx : option string
}.

(** Python exceptions raised by the modelled code. *)
Inductive exc :=
| ValidationError (title : string) (errors : list err)
| ValueError (msg : string)
| TypeError (msg : string)
| IndexError
| KeyError.

(** Result of a Python call: a value or a raised exception. *)
Inductive res (A : Type) :=
| Ok (a : A)
| Raise (e : exc).
Arguments Ok {A} a.
Arguments Raise {A} e.

Definition res_bind {A B} (m : res A) (k : A -> res B) : res B :=
  match m with
  | Ok a => k a
  | Raise e => Raise e
  end.

Notation "x <-? m ;; k" := (res_bind m (fun x => k))
  (at level 61, m at next level, right associativity).

(** ** Stateful methods: the store survives a raised exception *)

Definition St (S A : Type) := S -> res A * S.

Definition ret {S A} (a : A) : St S A := fun s => (Ok a, s).
Definition throw {S A} (e : exc) : St S A := fun s => (Raise e, s).
Definition lift {S A} (r : res A) : St S A := fun s => (r, s).
Definition get {S} : St S S := fun s => (Ok s, s).
Definition put {S} (s' : S) : St S unit := fun _ => (Ok tt, s').
Definition bind {S A B} (m : St S A) (k : A -> St S B) : St S B :=
  fun s =>
    match m s with
    | (Ok a, s') => k a s'
    | (Raise e, s') => (Raise e, s')
    end.

Notation "x <- m ;; k" := (bind m (fun x => k))
  (at level 61, m at next level, right associativity).
Notation "m ;;; k" := (bind m (fun _ => k))
  (at level 61, right associativity).

End PyModel.

Module Core.
Import PyModel.

(** ** [external_utils.py] *)

(** [get_types_from_annotation]: unions expand to their members, a class
    yields itself, anything else yields its [get_origin]. *)
Fixpoint get_types_from_annotation (tp : annot) : list tyobj :=
  match tp with
  | AUnion args | AUnionType args =>
      (fix go (l : list annot) : list tyobj :=
         match l with
         | [] => []
         | sub_tp :: l' => get_types_from_annotation sub_tp ++ go l'
         end) args
  | AClass c => [TClass c]
  | AAlias origin _ | AGenericAlias origin _ => [origin]
  | ANoOrigin _ => [TNotClass "None"]
  end.

(** [wrap_errors_with_loc]: [{**err, "loc": loc_prefix + err["loc"]}]. *)
Definition wrap_errors_with_loc (errors : list err) (loc_prefix : loc)
  : list err :=
  map (fun e => mkErr (err_type e) (loc_prefix ++ err_loc e) (err_input e)
                      (err_ctx e)) errors.

(** ** [core.py] *)

(** The validator compiled by [pydantic.TypeAdapter(el_type)]:
    [validate_python(value, strict=..., from_attributes=...)] returns the
    validated value or the engine's error list. *)
Definition TypeAdapter := pyval -> bool -> bool -> pyval + list err.

Record Element := mkElement {
  annotation : annot;
  adapter : TypeAdapter
}.

(** The resolved [model_config]: [None] when the key is absent. *)
Record CollectionModelConfig := mkConfig {
  validate_assignment : option bool;
  validate_assignment_strict : option bool
}.

Definition _DEFAULT_VALIDATE_ASSIGNMENT := true.
Definition _DEFAULT_VALIDATE_ASSIGNMENT_STRICT := true.

(** [model_config.get(key, default)] *)
Definition config_get (o : option bool) (default : bool) : bool :=
  match o with Some b => b | None => default end.

(** The class-level data an instance method reads through [self]:
    [self.__class__.__name__], [self.model_config], [self.__element__]. *)
Record CollectionClass := mkClass {
  class_name : string;
  model_config : CollectionModelConfig;
  __element__ : Element
}.

Section Runtime.

(** [isinstance(v, c)] for a class [c] that is not [type(v)] itself:
    [type(c).__instancecheck__(c, v)]. The metaclass [type] answers by
    [type(v).__mro__], [ABCMeta] also by registered virtual subclasses, and
    the metaclass of [typing.Any] (a class from Python 3.11) raises
    [TypeError]. *)
Variable instancecheck : cls -> pyval -> res bool.
(** [str(annotation)] *)
Variable annot_str : annot -> string.

(** The [TypeError] [isinstance] raises for a member that is not a class:
    a special form such as [typing.Literal] has an [__instancecheck__] that
    refuses; [None] (no origin) has none and is not a class. *)
Definition not_a_class_error (d : string) : exc :=
  if String.eqb d "None"
  then TypeError "isinstance() arg 2 must be a type, a tuple of types, or a union"
  else TypeError (d ++ " cannot be used with isinstance()").

(** [isinstance(value, tuple(types))], as CPython's
    [object_recursive_isinstance]: the tuple is scanned left to right and
    stops at the first member that answers [True] or raises; a class that is
    exactly [type(value)] answers [True] at once, any other class asks its
    metaclass. *)
Fixpoint isinstance_tuple (v : pyval) (types : list tyobj) : res bool :=
  match types with
  | [] => Ok false
  | TClass c :: types' =>
      b <-? (if Nat.eqb (type_of v) c then Ok true else instancecheck c v) ;;
      if b then Ok true else isinstance_tuple v types'
  | TNotClass d :: _ => Raise (not_a_class_error d)
  end.

(** The error record built by [_validate_element_type]. *)
Definition is_instance_of_error (self : CollectionClass) (value : pyval)
  (l : loc) : err :=
  mkErr "is_instance_of" l value (Some (annot_str (annotation (__element__ self)))).

(** [BaseCollectionModel._validate_element_type] *)
Definition _validate_element_type (self : CollectionClass) (value : pyval)
  (l : loc) : res unit :=
  let types := get_types_from_annotation (annotation (__element__ self)) in
  b <-? isinstance_tuple value types ;;
  if b then Ok tt
  else Raise (ValidationError (class_name self)
                [is_instance_of_error self value l]).

(** [BaseCollectionModel._validate_element] *)
Definition _validate_element (self : CollectionClass) (value : pyval)
  (l : loc) : res pyval :=
  if negb (config_get (validate_assignment (model_config self))
             _DEFAULT_VALIDATE_ASSIGNMENT)
  then Ok value
  else
    strict <-?
      (if config_get (validate_assignment_strict (model_config self))
            _DEFAULT_VALIDATE_ASSIGNMENT_STRICT
       then _ <-? _validate_element_type self value l ;; Ok true
       else Ok false) ;;
    match adapter (__element__ self) value strict true with
    | inl v => Ok v
    | inr errors =>
        Raise (ValidationError (class_name self)
                 (wrap_errors_with_loc errors l))
    end.

End Runtime.

End Core.

Module PyList.
Import PyModel.
Open Scope Z_scope.

(** ** The built-in list operations the containers delegate to *)

Definition py_len {A} (l : list A) : Z := Z.of_nat (List.length l).

(** [l[i] = x] for an int index. *)
Definition list_setitem {A} (l : list A) (i : Z) (x : A) : res (list A) :=
  let n := py_len l in
  let j := if i <? 0 then i + n else i in
  if (0 <=? j) && (j <? n)
  then Ok (firstn (Z.to_nat j) l ++ x :: skipn (S (Z.to_nat j)) l)
  else Raise IndexError.

(** [l.insert(i, x)]: the position is clamped into [0, len(l)]. *)
Definition list_insert {A} (l : list A) (i : Z) (x : A) : list A :=
  let n := py_len l in
  let j := if i <? 0 then Z.max 0 (i + n) else Z.min i n in
  firstn (Z.to_nat j) l ++ x :: skipn (Z.to_nat j) l.

(** The number of items of [range(start, stop, step)], [step <> 0]. *)
Definition range_len (start stop step : Z) : Z :=
  if 0 <? step then Z.max 0 ((stop - start + step - 1) / step)
  else Z.max 0 ((start - stop - step - 1) / (- step)).

Definition range_list (start stop step : Z) : list Z :=
  map (fun k => start + Z.of_nat k * step)
      (seq 0 (Z.to_nat (range_len start stop step))).

(** [range(start, stop, step)] *)
Definition range (start stop step : Z) : res (list Z) :=
  if step =? 0 then Raise (ValueError "range() arg 3 must not be zero")
  else Ok (range_list start stop step).

(** A [slice] object; [None] components are [None]. *)
Record pyslice := mkSlice {
  sl_start : option Z;
  sl_stop : option Z;
  sl_step : option Z
}.

(** [slice.indices(n)], as CPython's [PySlice_AdjustIndices]. *)
Definition slice_indices (sl : pyslice) (n : Z) : res (Z * Z * Z) :=
  let step := match sl_step sl with Some s => s | None => 1 end in
  if step =? 0 then Raise (ValueError "slice step cannot be zero")
  else
    let lower := if step <? 0 then -1 else 0 in
    let upper := if step <? 0 then n - 1 else n in
    let adjust (o : option Z) (dflt : Z) :=
      match o with
      | None => dflt
      | Some s => if s <? 0 then Z.max lower (s + n) else Z.min upper s
      end in
    Ok (adjust (sl_start sl) (if step <? 0 then upper else lower),
        adjust (sl_stop sl) (if step <? 0 then lower else upper),
        step).

(** The positions [l[sl]] selects in a list of length [n]. *)
Definition slice_positions (sl : pyslice) (n : Z) : res (list Z) :=
  res_bind (slice_indices sl n)
    (fun '(start, stop, step) => Ok (range_list start stop step)).

(** [l[sl]] *)
Definition list_getslice {A} (dflt : A) (l : list A) (sl : pyslice)
  : res (list A) :=
  ps <-? slice_positions sl (py_len l) ;;
  Ok (map (fun i => nth (Z.to_nat i) l dflt) ps).

(** [d[k] = v] on a dict kept as an association list in insertion order. *)
Fixpoint dict_setitem {A} (d : list (string * A)) (k : string) (v : A)
  : list (string * A) :=
  match d with
  | [] => [(k, v)]
  | (k', v') :: d' =>
      if String.eqb k k' then (k, v) :: d' else (k', v') :: dict_setitem d' k v
  end.

End PyList.

Module Sequence.
Import PyModel Core PyList.
Open Scope Z_scope.

(** ** [sequence.py]: [PydanticSequence] *)

(** An instance: its class data and its [root] list. *)
Record PydanticSequence := mkSeq {
  seq_class : CollectionClass;
  root : list pyval
}.

(** pydantic's lax validation of the [root] field, annotated
    [List[el_type]] by the specialization ([core.py], line 70): a list is
    validated item by item with the element's validator, errors located at
    the item's index; any other input is a [list_type] error. *)
Fixpoint validate_items (a : TypeAdapter) (i : Z) (xs : list pyval)
  : option (list pyval) * list err :=
  match xs with
  | [] => (Some [], [])
  | x :: xs' =>
      let '(vs, es) := validate_items a (i + 1) xs' in
      match a x false false with
      | inl v => (option_map (cons v) vs, es)
      | inr e => (None, wrap_errors_with_loc e [LInt i] ++ es)
      end
  end.

Definition validate_root (el : Element) (v : pyval) : list pyval + list err :=
  match v with
  | VList xs =>
      match validate_items (adapter el) 0 xs with
      | (Some vs, _) => inl vs
      | (None, es) => inr es
      end
  | _ => inr [mkErr "list_type" [] v None]
  end.

(** [RootModel.__init__(self, root=PydanticUndefined, **data)]: keyword
    data become the root; the root is then validated. *)
Definition RootModel_init (c : CollectionClass) (r : option pyval)
  (data : list (string * pyval)) : res PydanticSequence :=
  r' <-? match data, r with
         | [], Some r0 => Ok r0
         | [], None =>
             Raise (ValidationError (class_name c) [mkErr "missing" [] VNone None])
         | _ :: _, Some _ =>
             Raise (ValueError "RootModel.__init__ accepts either a single positional argument or arbitrary keyword arguments")
         | _ :: _, None => Ok (VDict data)
         end ;;
  match validate_root (__element__ c) r' with
  | inl xs => Ok (mkSeq c xs)
  | inr es => Raise (ValidationError (class_name c) es)
  end.

Definition nonempty {A} (l : list A) : bool :=
  match l with [] => false | _ :: _ => true end.

(** [PydanticSequence.__init__(self, *data, root=None, **kwargs)] *)
Definition PydanticSequence_init (c : CollectionClass) (data : list pyval)
  (root : option (list pyval)) (kwargs : list (string * pyval))
  : res PydanticSequence :=
  let root := match root with None => [] | Some r => r end in
  if nonempty root && nonempty kwargs
  then Raise (ValueError "Cannot provide both data and **kwargs.")
  else if nonempty kwargs then RootModel_init c None kwargs
  else RootModel_init c (Some (VList (root ++ data))) [].

(** [__getitem__] with a slice: [self.__class__(self.root[index])]. *)
Definition getitem_slice (self : PydanticSequence) (index : pyslice)
  : res PydanticSequence :=
  sub <-? list_getslice VNone (root self) index ;;
  PydanticSequence_init (seq_class self) [VList sub] None [].

(** [_get_index_range]: [None] components defaulted, [range(start, stop,
    step or 1)]. *)
Definition _get_index_range (n : Z) (index : pyslice) : res (list Z) :=
  let step := match sl_step index with None => 1 | Some s => s end in
  let start := match sl_start index with None => 0 | Some s => s end in
  let stop := match sl_stop index with None => n | Some s => s end in
  range start stop (if step =? 0 then 1 else step).

Section Methods.

Variable instancecheck : cls -> pyval -> res bool.
Variable annot_str : annot -> string.
Variable c : CollectionClass.

(** [_validate_sequence_element(value, index)] *)
Definition _validate_sequence_element (value : pyval) (index : Z)
  : res pyval :=
  _validate_element instancecheck annot_str c value [LInt index].

(** [self.root[index] = self._validate_sequence_element(value, index)]:
    the right-hand side is evaluated first. *)
Definition setitem_int (index : Z) (value : pyval) : St (list pyval) unit :=
  v <- lift (_validate_sequence_element value index) ;;
  r <- get ;;
  r' <- lift (list_setitem r index v) ;;
  put r'.

(** The loop [for index, each_value in zip(range, value, strict=True)]:
    [zip] reports a length mismatch only when the shorter side runs out,
    after the pairs before it were assigned. *)
Fixpoint setitem_zip (idxs : list Z) (values : list pyval)
  : St (list pyval) unit :=
  match idxs, values with
  | index :: idxs', each_value :: values' =>
      setitem_int index each_value ;;; setitem_zip idxs' values'
  | [], [] => ret tt
  | _ :: _, [] => throw (ValueError "zip() argument 2 is shorter than argument 1")
  | [], _ :: _ => throw (ValueError "zip() argument 2 is longer than argument 1")
  end.

(** [__setitem__] with a slice. *)
Definition setitem_slice (index : pyslice) (values : list pyval)
  : St (list pyval) unit :=
  r <- get ;;
  idxs <- lift (_get_index_range (py_len r) index) ;;
  setitem_zip idxs values.

(** [insert(index, value)] *)
Definition insert (index : Z) (value : pyval) : St (list pyval) unit :=
  r <- get ;;
  v <- lift (_validate_sequence_element value index) ;;
  put (list_insert r index v).

(** [append(value)], inherited from [collections.abc.MutableSequence]:
    [self.insert(len(self), value)]. *)
Definition append (value : pyval) : St (list pyval) unit :=
  r <- get ;;
  insert (py_len r) value.

End Methods.

End Sequence.

Module Mapping.
Import PyModel Core PyList.

(** ** [mapping.py]: [PydanticMapping.__setitem__] *)

Definition setitem (instancecheck : cls -> pyval -> res bool) (annot_str : annot -> string)
  (c : CollectionClass) (key : string) (value : pyval)
  : St (list (string * pyval)) unit :=
  v <- lift (_validate_element instancecheck annot_str c value [LStr key]) ;;
  r <- get ;;
  put (dict_setitem r key v).

End Mapping.

Module Specialize.
Import PyModel Core.

(** ** [BaseCollectionModelMeta.__getitem__] under [external_utils.tp_cache] *)

(** Equality of cache keys: [==] on type expressions. Classes and other
    objects compare by identity; two unions (of either spelling) compare
    their arguments as sets, as [typing.Union] and [types.UnionType] do, and
    so does [Literal]; other aliases compare the origin and the ordered
    arguments, a [typing] alias never equal to a built-in one. *)
Definition tyobj_eqb (x y : tyobj) : bool :=
  match x, y with
  | TClass a, TClass b => Nat.eqb a b
  | TNotClass a, TNotClass b => String.eqb a b
  | _, _ => false
  end.

Fixpoint annot_eqb (x y : annot) : bool :=
  let fix args_eqb (xs ys : list annot) : bool :=
    match xs, ys with
    | [], [] => true
    | x' :: xs', y' :: ys' => annot_eqb x' y' && args_eqb xs' ys'
    | _, _ => false
    end in
  let set_eqb (xs ys : list annot) : bool :=
    forallb (fun x' => existsb (annot_eqb x') ys) xs &&
    forallb (fun y' => existsb (fun x' => annot_eqb x' y') xs) ys in
  match x, y with
  | AClass a, AClass b => Nat.eqb a b
  | (AUnion xs | AUnionType xs), (AUnion ys | AUnionType ys) => set_eqb xs ys
  | AAlias o xs, AAlias o' ys =>
      tyobj_eqb o o' &&
      (if tyobj_eqb o (TNotClass "typing.Literal") then set_eqb xs ys
       else args_eqb xs ys)
  | AGenericAlias o xs, AGenericAlias o' ys => tyobj_eqb o o' && args_eqb xs ys
  | ANoOrigin a, ANoOrigin b => String.eqb a b
  | _, _ => false
  end.

(** [type(tp)], the part of the key [lru_cache(typed=True)] adds. *)
Definition annot_type (a : annot) : nat :=
  match a with
  | AClass _ => 0
  | AUnion _ => 1
  | AUnionType _ => 2
  | AAlias o _ => if tyobj_eqb o (TNotClass "typing.Literal") then 3 else 4
  | AGenericAlias _ _ => 5
  | ANoOrigin _ => 6
  end.

(** The [Element] object stored in a specialized class, with its identity. *)
Record ElementObj := mkElementObj {
  el_id : nat;
  el_annotation : annot;
  el_adapter : TypeAdapter
}.

(** A class built by [type(f"{cls.__name__}[{el_type}]", (cls,), ...)]. *)
Record SpecClass := mkSpecClass {
  sc_id : nat;
  sc_base : cls;
  sc_element : ElementObj
}.

(** The interpreter state the specialization touches: the [lru_cache]
    dictionary, the objects created so far and the next fresh identity. *)
Record World := mkWorld {
  cache : list ((cls * annot) * nat);
  classes : list SpecClass;
  next_id : nat
}.

Definition alloc : St World nat :=
  fun w => (Ok (next_id w), mkWorld (cache w) (classes w) (S (next_id w))).

Definition add_class (sc : SpecClass) : St World unit :=
  fun w => (Ok tt, mkWorld (cache w) (sc :: classes w) (next_id w)).

Fixpoint cache_lookup (k : cls * annot) (l : list ((cls * annot) * nat))
  : option nat :=
  match l with
  | [] => None
  | ((c, a), r) :: l' =>
      if Nat.eqb c (fst k) && annot_eqb a (snd k) &&
         Nat.eqb (annot_type a) (annot_type (snd k)) then Some r
      else cache_lookup k l'
  end.

Definition cache_store (k : cls * annot) (r : nat) (w : World) : World :=
  mkWorld ((k, r) :: cache w) (classes w) (next_id w).

Fixpoint find_class (k : nat) (l : list SpecClass) : option SpecClass :=
  match l with
  | [] => None
  | sc :: l' => if Nat.eqb (sc_id sc) k then Some sc else find_class k l'
  end.

Section Meta.

(** [issubclass(cls, BaseCollectionModel)] *)
Variable is_collection_model : cls -> bool.
(** [pdt.TypeAdapter(el_type)]; pydantic's schema errors are [TypeError]s. *)
Variable TypeAdapter_new : annot -> res TypeAdapter.
(** Whether [hash((cls, el_type, type(cls), type(el_type)))] succeeds. *)
Variable hashable : annot -> bool.

(** The undecorated [BaseCollectionModelMeta.__getitem__]. *)
Definition meta_getitem (c : cls) (el_type : annot) : St World nat :=
  if negb (is_collection_model c)
  then throw (TypeError "is not a BaseCollectionModel")
  else
    a <- lift (TypeAdapter_new el_type) ;;
    eid <- alloc ;;
    cid <- alloc ;;
    add_class (mkSpecClass cid c (mkElementObj eid el_type a)) ;;;
    ret cid.

(** [functools.lru_cache(maxsize=None, typed=True)(func)]: hashing the key
    raises [TypeError] for an unhashable argument; on a miss the result is
    stored only when [func] returns. *)
Definition lru_cached (func : cls -> annot -> St World nat) (c : cls)
  (a : annot) : St World nat :=
  fun w =>
    if hashable a then
      match cache_lookup (c, a) (cache w) with
      | Some r => (Ok r, w)
      | None =>
          match func c a w with
          | (Ok r, w') => (Ok r, cache_store (c, a) r w')
          | (Raise e, w') => (Raise e, w')
          end
      end
    else (Raise (TypeError "unhashable type"), w).

(** [tp_cache(func)]: a [TypeError] of the cached call is suppressed and
    [func] is called directly. *)
Definition tp_cache (func : cls -> annot -> St World nat) (c : cls)
  (a : annot) : St World nat :=
  fun w =>
    match lru_cached func c a w with
    | (Raise (TypeError _), w') => func c a w'
    | r => r
    end.

(** [Container[el_type]] *)
Definition class_getitem : cls -> annot -> St World nat :=
  tp_cache meta_getitem.

End Meta.

End Specialize.

Module Demo.
Import PyModel Core PyList Sequence.

(** ** The test suite's setting: [User{name: str, age: int}] *)

Definition cls_User : cls := 10%nat.
(** A subclass [class SubUser(User)]. *)
Definition cls_SubUser : cls := 11%nat.

(** [typing.Any], a class from Python 3.11 whose metaclass refuses
    [isinstance]. *)
Definition cls_Any : cls := 12%nat.

Definition demo_mro (c : cls) : list cls :=
  if Nat.eqb c cls_SubUser then [cls_SubUser; cls_User; cls_object]
  else [c; cls_object].

(** [type(c).__instancecheck__(c, v)]: [type]'s answer by the MRO, and
    [_AnyMeta]'s [TypeError] for [typing.Any]. *)
Definition demo_instancecheck (c : cls) (v : pyval) : res bool :=
  if Nat.eqb c cls_Any
  then Raise (TypeError "typing.Any cannot be used with isinstance()")
  else Ok (existsb (Nat.eqb c) (demo_mro (type_of v))).

Definition demo_annot_str (a : annot) : string :=
  match a with
  | AClass 10%nat => "<class 'test_sequence.User'>"
  | _ => "<annotation>"
  end.

Definition user (name : string) (age : Z) : pyval :=
  VObj cls_User [("name", VStr name); ("age", VInt age)].

Definition user_dict (name : string) (age : Z) : pyval :=
  VDict [("name", VStr name); ("age", VInt age)].

(** The fields check of [User]'s validator on a mapping of attributes. *)
Definition user_fields (input : pyval) (kv : list (string * pyval))
  : pyval + list err :=
  match find (fun p => String.eqb (fst p) "name") kv,
        find (fun p => String.eqb (fst p) "age") kv with
  | Some (_, VStr n), Some (_, VInt a) => inl (user n a)
  | Some (_, VStr _), Some (_, x) => inr [mkErr "int_type" [LStr "age"] x None]
  | _, _ => inr [mkErr "missing" [LStr "name"] input None]
  end.

(** A validator with the behaviour pydantic has for [User]: instances (of
    subclasses too) pass, a dict is accepted in lax mode, an object with the
    right attributes under [from_attributes]. *)
Definition user_adapter : TypeAdapter :=
  fun v strict from_attributes =>
    match v with
    | VObj c fs =>
        if Nat.eqb c cls_User || Nat.eqb c cls_SubUser then inl v
        else if from_attributes then user_fields v fs
        else inr [mkErr "model_type" [] v None]
    | VDict kv =>
        if strict then inr [mkErr "model_type" [] v None]
        else user_fields v kv
    | _ => inr [mkErr "model_type" [] v None]
    end.

Definition user_element : Element := mkElement (AClass cls_User) user_adapter.

(** [UsersSequence]: default configuration. *)
Definition UsersSequence : CollectionClass :=
  mkClass "UsersSequence" (mkConfig (Some true) (Some true)) user_element.

(** [WeakUsersSequence]: [validate_assignment_strict=False]. *)
Definition WeakUsersSequence : CollectionClass :=
  mkClass "WeakUsersSequence" (mkConfig (Some true) (Some false)) user_element.

(** A subclass with [validate_assignment=False]. *)
Definition UncheckedUsersSequence : CollectionClass :=
  mkClass "UncheckedUsersSequence" (mkConfig (Some false) (Some true))
    user_element.

(** An element annotation [Union[Literal["admin"], User]]. *)
Definition literal_or_user : annot :=
  AUnion [AAlias (TNotClass "typing.Literal") [ANoOrigin "'admin'"];
          AClass cls_User].

Definition LiteralOrUsersSequence : CollectionClass :=
  mkClass "LiteralOrUsersSequence" (mkConfig (Some true) (Some true))
    (mkElement literal_or_user user_adapter).

(** An element annotation [Union[Any, User]]. *)
Definition any_or_user : annot := AUnion [AClass cls_Any; AClass cls_User].

Definition AnyOrUsersSequence : CollectionClass :=
  mkClass "AnyOrUsersSequence" (mkConfig (Some true) (Some true))
    (mkElement any_or_user user_adapter).

Definition sub_user : pyval :=
  VObj cls_SubUser [("name", VStr "Sub"); ("age", VInt 7)].

(** [key=lambda u: u.age] *)
Definition user_age (v : pyval) : Z :=
  match v with
  | VObj _ fs =>
      match find (fun p => String.eqb (fst p) "age") fs with
      | Some (_, VInt a) => a
      | _ => 0
      end
  | _ => 0
  end.

End Demo.

Module SpecDemo.
Import PyModel Core Specialize Demo.

(** A specialization setting: every base is a collection model, every
    annotation compiles, a parametrized alias such as [List[User]] plays the
    unhashable key. *)
Definition demo_is_collection_model (c : cls) : bool := true.
Definition demo_TypeAdapter_new (a : annot) : res TypeAdapter := Ok user_adapter.
Definition demo_hashable (a : annot) : bool :=
  match a with AAlias _ (_ :: _) => false | _ => true end.
Definition demo_world : World := mkWorld [] [] 100.
Definition unhashable_annot : annot := AAlias (TClass cls_list) [AClass cls_User].

End SpecDemo.

Module SequenceOps.
Import PyModel Core PyList Sequence.
Open Scope Z_scope.

(** ** The other methods of [PydanticSequence] *)

(** [l[i]] for an int index. *)
Definition list_getitem {A} (l : list A) (i : Z) : res A :=
  let n := py_len l in
  let j := if i <? 0 then i + n else i in
  if (0 <=? j) && (j <? n)
  then match nth_error l (Z.to_nat j) with
       | Some x => Ok x
       | None => Raise IndexError
       end
  else Raise IndexError.

(** [del l[i]] for an int index. *)
Definition list_delitem {A} (l : list A) (i : Z) : res (list A) :=
  let n := py_len l in
  let j := if i <? 0 then i + n else i in
  if (0 <=? j) && (j <? n)
  then Ok (firstn (Z.to_nat j) l ++ skipn (S (Z.to_nat j)) l)
  else Raise IndexError.

(** [__len__]: [len(self.root)]. *)
Definition seq_len : St (list pyval) Z :=
  r <- get ;;
  ret (py_len r).

(** [__getitem__] with an int: [self.root[index]]. *)
Definition getitem_int (index : Z) : St (list pyval) pyval :=
  r <- get ;;
  lift (list_getitem r index).

(** [__delitem__] with an int: [del self.root[index]], no validation. *)
Definition delitem_int (index : Z) : St (list pyval) unit :=
  r <- get ;;
  r' <- lift (list_delitem r index) ;;
  put r'.

(** One step of a stable sort: [x], which comes before every item of [l]
    in the input, is placed before the first [y] with [before x y]. *)
Fixpoint insort_by (before : pyval -> pyval -> bool) (x : pyval)
  (l : list pyval) : list pyval :=
  match l with
  | [] => [x]
  | y :: l' => if before x y then x :: l else y :: insort_by before x l'
  end.

(** [sorted(l, key=key, reverse=reverse)] for a key function with integer
    results. Python's sort is stable, also with [reverse=True]: items with
    equal keys keep their order, so an earlier item goes before a later one
    unless the later one's key is strictly smaller (strictly larger when
    reversed). *)
Definition sorted_py (key : pyval -> Z) (reverse : bool) (l : list pyval)
  : list pyval :=
  let before :=
    if reverse then fun x y => key y <=? key x
    else fun x y => key x <=? key y in
  fold_right (insort_by before) [] l.

(** [sort(key, reverse)]: [self.root = sorted(self.root, ...)]. The
    assignment goes through pydantic's [validate_assignment] (on by default,
    the same configuration key [_validate_element] reads): the new list is
    validated against the root type [list[el_type]] as at construction, and
    a failure raises [ValidationError] and leaves [root] as it was. *)
Definition sort (c : CollectionClass) (key : pyval -> Z) (reverse : bool)
  : St (list pyval) unit :=
  r <- get ;;
  let r' := sorted_py key reverse r in
  if config_get (validate_assignment (model_config c)) _DEFAULT_VALIDATE_ASSIGNMENT
  then match validate_root (__element__ c) (VList r') with
       | inl xs => put xs
       | inr es => throw (ValidationError (class_name c) es)
       end
  else put r'.

(** ** [PersistentPydanticSequence] *)

(** An instance: the sequence and the attributes its [__init__] sets; the
    database and the key are Python objects. *)
Record PersistentPydanticSequence := mkPSeq {
  pseq : PydanticSequence;
  persistence_db_overwrite : bool;
  persistence_db : pyval;
  persistance_db_key : pyval
}.

(** [PersistentPydanticSequence.__init__(self, *data,
    persistence_db_overwrite=False, persistence_db, persistance_db_key,
    root=None, **kwargs)]: the two keyword-only parameters have no default,
    so a call without them fails when its arguments are bound. *)
Definition PersistentPydanticSequence_init (c : CollectionClass)
  (data : list pyval) (overwrite : option bool) (db key : option pyval)
  (root : option (list pyval)) (kwargs : list (string * pyval))
  : res PersistentPydanticSequence :=
  match db, key with
  | None, None =>
      Raise (TypeError "PersistentPydanticSequence.__init__() missing 2 required keyword-only arguments: 'persistence_db' and 'persistance_db_key'")
  | None, Some _ =>
      Raise (TypeError "PersistentPydanticSequence.__init__() missing 1 required keyword-only argument: 'persistence_db'")
  | Some _, None =>
      Raise (TypeError "PersistentPydanticSequence.__init__() missing 1 required keyword-only argument: 'persistance_db_key'")
  | Some d, Some k =>
      s <-? PydanticSequence_init c data root kwargs ;;
      Ok (mkPSeq s (match overwrite with None => false | Some b => b end) d k)
  end.

(** [__getitem__] with a slice: [super().__getitem__(index)], that is
    [self.__class__(self.root[index])], which calls the [__init__] above with
    the one positional argument. *)
Definition p_getitem_slice (self : PersistentPydanticSequence)
  (index : pyslice) : res PersistentPydanticSequence :=
  sub <-? list_getslice VNone (root (pseq self)) index ;;
  PersistentPydanticSequence_init (seq_class (pseq self)) [VList sub]
    None None None None [].

End SequenceOps.

Module MappingOps.
Import PyModel Core PyList.

(** ** The other methods of [PydanticMapping] *)

(** The value [d[k]] finds. *)
Fixpoint dict_lookup {A} (d : list (string * A)) (k : string) : option A :=
  match d with
  | [] => None
  | (k', v') :: d' => if String.eqb k k' then Some v' else dict_lookup d' k
  end.

(** [d[k]] *)
Definition dict_getitem {A} (d : list (string * A)) (k : string) : res A :=
  match dict_lookup d k with
  | Some v => Ok v
  | None => Raise KeyError
  end.

Fixpoint dict_remove {A} (d : list (string * A)) (k : string)
  : list (string * A) :=
  match d with
  | [] => []
  | (k', v') :: d' => if String.eqb k k' then d' else (k', v') :: dict_remove d' k
  end.

(** [del d[k]] *)
Definition dict_delitem {A} (d : list (string * A)) (k : string)
  : res (list (string * A)) :=
  match dict_lookup d k with
  | Some _ => Ok (dict_remove d k)
  | None => Raise KeyError
  end.

(** [d1 | d2]: a copy of [d1] updated with the items of [d2] in order. *)
Definition dict_or {A} (d1 d2 : list (string * A)) : list (string * A) :=
  fold_left (fun acc kv => dict_setitem acc (fst kv) (snd kv)) d2 d1.

(** The dict [PydanticMapping.__init__] hands to [RootModel.__init__]:
    [root] defaulted to [{}], then [root | data]. *)
Definition mapping_init_root (root : option (list (string * pyval)))
  (data : list (string * pyval)) : list (string * pyval) :=
  let root := match root with None => [] | Some r => r end in
  dict_or root data.

(** [__getitem__]: [self.root[key]]. *)
Definition getitem (key : string) : St (list (string * pyval)) pyval :=
  r <- get ;;
  lift (dict_getitem r key).

(** [__delitem__]: [del self.root[key]], no validation. *)
Definition delitem (key : string) : St (list (string * pyval)) unit :=
  r <- get ;;
  r' <- lift (dict_delitem r key) ;;
  put r'.

(** [__iter__] yields the keys in insertion order; [__len__] counts them. *)
Definition keys (d : list (string * pyval)) : list string := map fst d.

Definition map_len : St (list (string * pyval)) nat :=
  r <- get ;;
  ret (List.length r).

End MappingOps.

(** * Proofs *)

Module Facts.
Import PyModel Core PyList Sequence.
Open Scope Z_scope.

Section Validation.

Variable instancecheck : cls -> pyval -> res bool.
Variable annot_str : annot -> string.

(** The strict pre-check rejects: the validator is not reached. *)
Lemma validate_element_precheck_fails (c : CollectionClass) v l :
  config_get (validate_assignment (model_config c))
    _DEFAULT_VALIDATE_ASSIGNMENT = true ->
  config_get (validate_assignment_strict (model_config c))
    _DEFAULT_VALIDATE_ASSIGNMENT_STRICT = true ->
  isinstance_tuple instancecheck v (get_types_from_annotation (annotation (__element__ c)))
    = Ok false ->
  _validate_element instancecheck annot_str c v l =
    Raise (ValidationError (class_name c) [is_instance_of_error annot_str c v l]).
Proof.
  intros Hva Hstrict Hinst. unfold _validate_element, _validate_element_type.
  rewrite Hva, Hstrict, Hinst. reflexivity.
Qed.

(** The pre-check passes or is off: the validator decides. *)
Lemma validate_element_reaches_validator (c : CollectionClass) v l strict :
  config_get (validate_assignment (model_config c))
    _DEFAULT_VALIDATE_ASSIGNMENT = true ->
  (config_get (validate_assignment_strict (model_config c))
     _DEFAULT_VALIDATE_ASSIGNMENT_STRICT = true /\
   isinstance_tuple instancecheck v
     (get_types_from_annotation (annotation (__element__ c))) = Ok true /\
   strict = true \/
   config_get (validate_assignment_strict (model_config c))
     _DEFAULT_VALIDATE_ASSIGNMENT_STRICT = false /\ strict = false) ->
  _validate_element instancecheck annot_str c v l =
    match adapter (__element__ c) v strict true with
    | inl v' => Ok v'
    | inr errors =>
        Raise (ValidationError (class_name c) (wrap_errors_with_loc errors l))
    end.
Proof.
  intros Hva Hpre. unfold _validate_element, _validate_element_type.
  rewrite Hva. simpl.
  destruct Hpre as [[Hs [Hi ->]] | [Hs ->]]; rewrite Hs; [rewrite Hi|]; reflexivity.
Qed.

(** A failed validation leaves every sequence store untouched. *)
Lemma setitem_int_raise c i v r e :
  _validate_sequence_element instancecheck annot_str c v i = Raise e ->
  setitem_int instancecheck annot_str c i v r = (Raise e, r).
Proof.
  intros H. unfold setitem_int, bind, lift. rewrite H. reflexivity.
Qed.

Lemma insert_raise c i v r e :
  _validate_sequence_element instancecheck annot_str c v i = Raise e ->
  insert instancecheck annot_str c i v r = (Raise e, r).
Proof.
  intros H. unfold insert, bind, lift, get. rewrite H. reflexivity.
Qed.

Lemma append_raise c v r e :
  _validate_sequence_element instancecheck annot_str c v (py_len r) = Raise e ->
  append instancecheck annot_str c v r = (Raise e, r).
Proof.
  intros H. unfold append, bind at 1, get. apply insert_raise. exact H.
Qed.

Lemma mapping_setitem_raise c k v d e :
  _validate_element instancecheck annot_str c v [LStr k] = Raise e ->
  Mapping.setitem instancecheck annot_str c k v d = (Raise e, d).
Proof.
  intros H. unfold Mapping.setitem, bind, lift. rewrite H. reflexivity.
Qed.

(** [isinstance] over a tuple whose first members all answer [False]. *)
Lemma isinstance_tuple_app_false v pre ts :
  isinstance_tuple instancecheck v pre = Ok false ->
  isinstance_tuple instancecheck v (pre ++ ts) = isinstance_tuple instancecheck v ts.
Proof.
  induction pre as [|[c'|d] pre IH]; simpl; intros H; [reflexivity| |discriminate].
  destruct (if Nat.eqb (type_of v) c' then Ok true else instancecheck c' v)
    as [[|]|e]; simpl in *; try discriminate.
  apply IH, H.
Qed.

(** [isinstance] over a tuple whose members before [c0] answer [False]. *)
Lemma isinstance_tuple_found v pre c0 post :
  isinstance_tuple instancecheck v pre = Ok false ->
  type_of v = c0 \/ instancecheck c0 v = Ok true ->
  isinstance_tuple instancecheck v (pre ++ TClass c0 :: post) = Ok true.
Proof.
  intros Hpre Hin. rewrite isinstance_tuple_app_false by exact Hpre. simpl.
  destruct (Nat.eqb_spec (type_of v) c0); [reflexivity|].
  destruct Hin as [Hin|Hin]; [contradiction|]. rewrite Hin. reflexivity.
Qed.

End Validation.

Lemma list_insert_at_end {A} (r : list A) (x : A) :
  list_insert r (py_len r) x = r ++ [x].
Proof.
  unfold list_insert, py_len.
  replace (Z.of_nat (List.length r) <? 0) with false by (symmetry; apply Z.ltb_ge; lia).
  rewrite Z.min_id, Nat2Z.id, firstn_all, skipn_all. reflexivity.
Qed.

(** Membership in [range(start, stop, step)] for a positive step. *)
Lemma range_list_In (a b s x : Z) :
  0 < s ->
  In x (range_list a b s) <-> a <= x < b /\ (x - a) mod s = 0.
Proof.
  intros Hs. unfold range_list, range_len.
  replace (0 <? s) with true by (symmetry; apply Z.ltb_lt; exact Hs).
  pose proof (Z.div_mod (b - a + s - 1) s ltac:(lia)) as Hdm.
  pose proof (Z.mod_pos_bound (b - a + s - 1) s Hs) as Hmb.
  set (q := (b - a + s - 1) / s) in *.
  set (m := (b - a + s - 1) mod s) in *.
  rewrite in_map_iff. split.
  - intros [k [<- Hk]]. apply in_seq in Hk.
    assert (Hkq : Z.of_nat k < q) by lia.
    split; [split; nia|].
    replace (a + Z.of_nat k * s - a) with (Z.of_nat k * s) by lia.
    apply Z.mod_mul. lia.
  - intros [[Hax Hxb] Hmod].
    pose proof (Z.div_mod (x - a) s ltac:(lia)) as Hxd.
    rewrite Hmod in Hxd.
    exists (Z.to_nat ((x - a) / s)). split.
    + rewrite Z2Nat.id by (apply Z.div_pos; lia). lia.
    + apply in_seq. split; [lia|].
      assert (0 <= (x - a) / s) by (apply Z.div_pos; lia).
      assert ((x - a) / s < q) by nia.
      lia.
Qed.

End Facts.

Module SpecFacts.
Import PyModel Core Specialize.

Lemma set_eqb_refl (xs : list annot) :
  Forall (fun z => annot_eqb z z = true) xs ->
  forallb (fun x' => existsb (annot_eqb x') xs) xs &&
  forallb (fun y' => existsb (fun x' => annot_eqb x' y') xs) xs = true.
Proof.
  intros H. rewrite Forall_forall in H. apply andb_true_intro.
  split; apply forallb_forall; intros z Hz; apply existsb_exists;
    exists z; split; [exact Hz | apply H, Hz | exact Hz | apply H, Hz].
Qed.

Lemma args_eqb_refl (xs : list annot) :
  Forall (fun z => annot_eqb z z = true) xs ->
  (fix args_eqb (xs ys : list annot) : bool :=
     match xs, ys with
     | [], [] => true
     | x' :: xs', y' :: ys' => annot_eqb x' y' && args_eqb xs' ys'
     | _, _ => false
     end) xs xs = true.
Proof.
  induction 1 as [|x xs Hx _ IH]; [reflexivity|]. simpl. rewrite Hx. exact IH.
Qed.

Lemma annot_eqb_refl : forall a, annot_eqb a a = true.
Proof.
  fix IH 1.
  assert (Hl : forall xs : list annot, Forall (fun z => annot_eqb z z = true) xs).
  { fix IHl 1. intros [|x xs]; constructor; [apply IH | apply IHl]. }
  intros [c | xs | xs | o xs | o xs | d]; cbn [annot_eqb].
  - apply Nat.eqb_refl.
  - apply set_eqb_refl, Hl.
  - apply set_eqb_refl, Hl.
  - assert (Ho : tyobj_eqb o o = true)
      by (destruct o; simpl; [apply Nat.eqb_refl | apply String.eqb_refl]).
    rewrite Ho. simpl.
    destruct (tyobj_eqb o (TNotClass "typing.Literal"));
      [apply set_eqb_refl, Hl | apply args_eqb_refl, Hl].
  - assert (Ho : tyobj_eqb o o = true)
      by (destruct o; simpl; [apply Nat.eqb_refl | apply String.eqb_refl]).
    rewrite Ho. apply args_eqb_refl, Hl.
  - apply String.eqb_refl.
Qed.

Section Meta.

Variable is_collection_model : cls -> bool.
Variable TypeAdapter_new : annot -> res TypeAdapter.
Variable hashable : annot -> bool.

(** A failing [__getitem__] fails before touching the state, whatever the
    state. *)
Lemma meta_getitem_raise c a w e w' :
  meta_getitem is_collection_model TypeAdapter_new c a w = (Raise e, w') ->
  w' = w /\
  forall w2, meta_getitem is_collection_model TypeAdapter_new c a w2 = (Raise e, w2).
Proof.
  unfold meta_getitem, bind, lift, throw, ret, alloc, add_class.
  destruct (negb (is_collection_model c)).
  - intros H. inversion H; subst. auto.
  - destruct (TypeAdapter_new a) as [ad | e0]; intros H; inversion H; subst; auto.
Qed.

(** A successful [__getitem__] allocates the [Element] and then the class. *)
Lemma meta_getitem_ok c a w k w' :
  meta_getitem is_collection_model TypeAdapter_new c a w = (Ok k, w') ->
  exists ad,
    k = S (next_id w) /\
    w' = mkWorld (cache w)
           (mkSpecClass k c (mkElementObj (next_id w) a ad) :: classes w)
           (S (S (next_id w))).
Proof.
  unfold meta_getitem, bind, lift, throw, ret, alloc, add_class.
  destruct (negb (is_collection_model c)); [intros H; discriminate H|].
  destruct (TypeAdapter_new a) as [ad | e0]; intros H; [|discriminate H].
  simpl in H. inversion H; subst. eauto.
Qed.

Lemma cache_lookup_store c a k w :
  cache_lookup (c, a) (cache (cache_store (c, a) k w)) = Some k.
Proof.
  simpl. rewrite !Nat.eqb_refl, annot_eqb_refl. reflexivity.
Qed.

Lemma class_getitem_unhashable c a w :
  hashable a = false ->
  class_getitem is_collection_model TypeAdapter_new hashable c a w =
  meta_getitem is_collection_model TypeAdapter_new c a w.
Proof.
  intros H. unfold class_getitem, tp_cache, lru_cached. rewrite H. reflexivity.
Qed.

End Meta.

End SpecFacts.

Module Claims.
Import PyModel Core PyList Sequence Demo Facts.
Open Scope Z_scope.

(** C1 (counterexample): the claim as stated fails twice in [UsersSequence]'s
    setting. (a) With [validate_assignment=False] and the strict policy on,
    appending a plain dict (runtime type [dict], not [User]) stores it
    unchanged: no error. (b) With both toggles on, appending an instance of
    a subclass of [User] (runtime type [SubUser], not among the admissible
    types [(User,)]) raises no error either: the pre-check is [isinstance]. *)
Lemma C1_counterexample :
  get_types_from_annotation (annotation user_element) = [TClass cls_User] /\
  append demo_instancecheck demo_annot_str UncheckedUsersSequence (user_dict "X" 5) [] =
    (Ok tt, [user_dict "X" 5]) /\
  type_of sub_user <> cls_User /\
  append demo_instancecheck demo_annot_str UsersSequence sub_user [] = (Ok tt, [sub_user]).
Proof.
  split; [reflexivity|]. split; [reflexivity|]. split; [discriminate|].
  reflexivity.
Qed.

(** C1 (amended): when validate-on-assignment and the strict policy are both
    on and [isinstance(value, tuple(types))] over the decomposed annotation
    returns [False] (every member is a class and the value is an instance of
    none of them), item assignment, [insert] and [append] raise a validation
    error titled with the class name holding one [is_instance_of] error at
    the element's location, with input the value and ctx class
    [str(annotation)]; the error does not depend on the validator, which is
    never called, and the store is unchanged. *)
Theorem C1_strict_precheck_rejects instancecheck annot_str (c : CollectionClass)
  (r : list pyval) (i : Z) (v : pyval) :
  config_get (validate_assignment (model_config c))
    _DEFAULT_VALIDATE_ASSIGNMENT = true ->
  config_get (validate_assignment_strict (model_config c))
    _DEFAULT_VALIDATE_ASSIGNMENT_STRICT = true ->
  isinstance_tuple instancecheck v (get_types_from_annotation (annotation (__element__ c)))
    = Ok false ->
  let E l := ValidationError (class_name c)
               [mkErr "is_instance_of" l v
                  (Some (annot_str (annotation (__element__ c))))] in
  setitem_int instancecheck annot_str c i v r = (Raise (E [LInt i]), r) /\
  insert instancecheck annot_str c i v r = (Raise (E [LInt i]), r) /\
  append instancecheck annot_str c v r = (Raise (E [LInt (py_len r)]), r).
Proof.
  intros Hva Hs Hi E.
  split; [|split].
  - apply setitem_int_raise. unfold _validate_sequence_element.
    apply validate_element_precheck_fails; assumption.
  - apply insert_raise. unfold _validate_sequence_element.
    apply validate_element_precheck_fails; assumption.
  - apply append_raise. unfold _validate_sequence_element.
    apply validate_element_precheck_fails; assumption.
Qed.

Lemma C1_witness :
  (config_get (validate_assignment (model_config UsersSequence))
     _DEFAULT_VALIDATE_ASSIGNMENT = true /\
   config_get (validate_assignment_strict (model_config UsersSequence))
     _DEFAULT_VALIDATE_ASSIGNMENT_STRICT = true /\
   isinstance_tuple demo_instancecheck (user_dict "X" 5)
     (get_types_from_annotation (annotation (__element__ UsersSequence)))
     = Ok false) /\
  append demo_instancecheck demo_annot_str UsersSequence (user_dict "X" 5) [user "A" 1] =
    (Raise (ValidationError "UsersSequence"
              [mkErr "is_instance_of" [LInt 1] (user_dict "X" 5)
                 (Some "<class 'test_sequence.User'>")]), [user "A" 1]).
Proof.
  split; [split; [reflexivity | split; reflexivity]|].
  exact (proj2 (proj2 (C1_strict_precheck_rejects demo_instancecheck demo_annot_str
    UsersSequence [user "A" 1] 0 (user_dict "X" 5) eq_refl eq_refl eq_refl))).
Defined.

(** C2 (failing input): assigning three users to [seq[0:2]] of a
    three-user sequence raises the [zip(strict=True)] arity error only after
    the two paired positions were validated and overwritten: the store is
    changed. *)
Theorem C2_slice_arity_partial_write :
  setitem_slice demo_instancecheck demo_annot_str UsersSequence
    (mkSlice (Some 0) (Some 2) None)
    [user "x" 5; user "y" 6; user "z" 7]
    [user "a" 0; user "b" 1; user "c" 2] =
  (Raise (ValueError "zip() argument 2 is longer than argument 1"),
   [user "x" 5; user "y" 6; user "c" 2]).
Proof. reflexivity. Qed.

(** C3: when the validator is reached (the strict pre-check passed, or the
    strict policy is off) and rejects the value with the engine errors
    [errs], the element validation, item assignment, [insert], [append] and
    mapping item assignment raise one [ValidationError] titled with the
    class name whose errors are [errs] with the element's location
    prefixed to each location (other fields kept), and no store changes. *)
Theorem C3_engine_errors_prefixed instancecheck annot_str (c : CollectionClass)
  (v : pyval) (strict : bool) (errs : list err)
  (r : list pyval) (d : list (string * pyval)) (i : Z) (key : string) :
  config_get (validate_assignment (model_config c))
    _DEFAULT_VALIDATE_ASSIGNMENT = true ->
  (config_get (validate_assignment_strict (model_config c))
     _DEFAULT_VALIDATE_ASSIGNMENT_STRICT = true /\
   isinstance_tuple instancecheck v
     (get_types_from_annotation (annotation (__element__ c))) = Ok true /\
   strict = true \/
   config_get (validate_assignment_strict (model_config c))
     _DEFAULT_VALIDATE_ASSIGNMENT_STRICT = false /\ strict = false) ->
  adapter (__element__ c) v strict true = inr errs ->
  let E l := ValidationError (class_name c) (wrap_errors_with_loc errs l) in
  (forall l,
     _validate_element instancecheck annot_str c v l = Raise (E l) /\
     map err_loc (wrap_errors_with_loc errs l) = map (fun e => l ++ err_loc e) errs /\
     map (fun e => (err_type e, err_input e, err_ctx e)) (wrap_errors_with_loc errs l)
       = map (fun e => (err_type e, err_input e, err_ctx e)) errs) /\
  setitem_int instancecheck annot_str c i v r = (Raise (E [LInt i]), r) /\
  insert instancecheck annot_str c i v r = (Raise (E [LInt i]), r) /\
  append instancecheck annot_str c v r = (Raise (E [LInt (py_len r)]), r) /\
  Mapping.setitem instancecheck annot_str c key v d = (Raise (E [LStr key]), d).
Proof.
  intros Hva Hpre Hadapter E.
  assert (Hv : forall l, _validate_element instancecheck annot_str c v l = Raise (E l)).
  { intros l. rewrite (validate_element_reaches_validator instancecheck annot_str c v l strict Hva Hpre).
    rewrite Hadapter. reflexivity. }
  split; [|split; [|split; [|split]]].
  - intros l. split; [apply Hv|].
    unfold wrap_errors_with_loc. rewrite !map_map. split; reflexivity.
  - apply setitem_int_raise. apply Hv.
  - apply insert_raise. apply Hv.
  - apply append_raise. apply Hv.
  - apply mapping_setitem_raise. apply Hv.
Qed.

Lemma C3_witness :
  (config_get (validate_assignment (model_config WeakUsersSequence))
     _DEFAULT_VALIDATE_ASSIGNMENT = true /\
   user_adapter (VDict [("name", VStr "A"); ("age", VStr "old")]) false true
     = inr [mkErr "int_type" [LStr "age"] (VStr "old") None]) /\
  append demo_instancecheck demo_annot_str WeakUsersSequence
    (VDict [("name", VStr "A"); ("age", VStr "old")]) [user "B" 2] =
  (Raise (ValidationError "WeakUsersSequence"
            [mkErr "int_type" [LInt 1; LStr "age"] (VStr "old") None]),
   [user "B" 2]).
Proof.
  split; [split; reflexivity|].
  exact (proj1 (proj2 (proj2 (proj2
    (C3_engine_errors_prefixed demo_instancecheck demo_annot_str WeakUsersSequence
       (VDict [("name", VStr "A"); ("age", VStr "old")]) false
       [mkErr "int_type" [LStr "age"] (VStr "old") None]
       [user "B" 2] [] 0 "k" eq_refl (or_intror (conj eq_refl eq_refl))
       eq_refl))))).
Defined.

(** C4 (counterexample): [append] on a two-element [UsersSequence] of a
    value the pre-check rejects reports location [(2,)], that is [N], not
    [N + 1 = 3]. *)
Lemma C4_counterexample :
  fst (append demo_instancecheck demo_annot_str UsersSequence (VStr "user")
         [user "Name 0" 0; user "Name 1" 1]) =
    Raise (ValidationError "UsersSequence"
             [mkErr "is_instance_of" [LInt 2] (VStr "user")
                (Some "<class 'test_sequence.User'>")]) /\
  [LInt 2] <> [LInt (2 + 1)].
Proof. split; [reflexivity | discriminate]. Qed.

(** C4 (amended): [append(value)] on a sequence of length [N] is
    [insert(N, value)]: the value is validated at location [(N,)], and on
    success it is stored at index [N], the end of the store. *)
Theorem C4_append_location instancecheck annot_str (c : CollectionClass)
  (v : pyval) (r : list pyval) :
  append instancecheck annot_str c v r =
    match _validate_element instancecheck annot_str c v [LInt (py_len r)] with
    | Ok v' => (Ok tt, r ++ [v'])
    | Raise e => (Raise e, r)
    end.
Proof.
  unfold append, insert, bind, get, lift, put, _validate_sequence_element.
  destruct (_validate_element instancecheck annot_str c v [LInt (py_len r)]);
    [rewrite list_insert_at_end|]; reflexivity.
Qed.


(** C5 (failing input): slicing [UsersSequence(User("Name 0", 0),
    User("Name 1", 1))] with [[0:2]] passes the sliced list positionally to
    the constructor, where it becomes one element of [*data]; validating
    that list as a [User] fails. In general a slice that returns at all
    returns a sequence of exactly one element. *)
Theorem C5_slice_rewraps_as_one_element :
  getitem_slice (mkSeq UsersSequence [user "Name 0" 0; user "Name 1" 1])
    (mkSlice (Some 0) (Some 2) None) =
  Raise (ValidationError "UsersSequence"
           [mkErr "model_type" [LInt 0]
              (VList [user "Name 0" 0; user "Name 1" 1]) None]) /\
  (forall self index,
     match getitem_slice self index with
     | Ok s => List.length (root s) = 1%nat
     | Raise _ => True
     end).
Proof.
  split; [reflexivity|].
  intros self index. unfold getitem_slice.
  destruct (list_getslice VNone (root self) index) as [sub|e]; simpl; [|exact I].
  unfold PydanticSequence_init, RootModel_init, validate_root. simpl.
  destruct (adapter (__element__ (seq_class self)) (VList sub) false false);
    simpl; [reflexivity | exact I].
Qed.

(** C6 (failing input): without [root], positional data and keyword data
    are not rejected with the conflict error: the positional data are
    dropped and the keyword data go to [RootModel.__init__]. For
    [UsersSequence(User("A", 1), extra=1)] the outcome is pydantic's
    [list_type] error on the dict [{"extra": 1}]. *)
Theorem C6_positional_with_kwargs_not_rejected :
  (forall c data kwargs,
     PydanticSequence_init c data None kwargs =
       if nonempty kwargs then RootModel_init c None kwargs
       else RootModel_init c (Some (VList data)) []) /\
  PydanticSequence_init UsersSequence [user "A" 1] None [("extra", VInt 1)] =
    Raise (ValidationError "UsersSequence"
             [mkErr "list_type" [] (VDict [("extra", VInt 1)]) None]).
Proof.
  split; [|reflexivity].
  intros c data kwargs. unfold PydanticSequence_init. reflexivity.
Qed.

(** C9 (counterexample): with the element annotation
    [Union[Literal["admin"], User]] the decomposition is
    [(Literal, User)]; a [SubUser] instance (a proper subclass of [User])
    makes [isinstance] raise [TypeError] at the special form [Literal]
    before [User] is tried, so the pre-check does not accept it. The same
    happens with [Union[Any, User]], since from Python 3.11 [typing.Any] is a
    class whose metaclass refuses [isinstance]. *)
Lemma C9_counterexample :
  get_types_from_annotation literal_or_user =
    [TNotClass "typing.Literal"; TClass cls_User] /\
  type_of sub_user <> cls_User /\
  demo_instancecheck cls_User sub_user = Ok true /\
  _validate_element demo_instancecheck demo_annot_str LiteralOrUsersSequence
    sub_user [LInt 0] =
  Raise (TypeError "typing.Literal cannot be used with isinstance()") /\
  get_types_from_annotation any_or_user = [TClass cls_Any; TClass cls_User] /\
  _validate_element demo_instancecheck demo_annot_str AnyOrUsersSequence
    sub_user [LInt 0] =
  Raise (TypeError "typing.Any cannot be used with isinstance()").
Proof.
  split; [reflexivity|]. split; [discriminate|]. repeat split.
Qed.

(** C9 (amended): with validate-on-assignment and the strict policy on, the
    pre-check is [isinstance]-based: a value for which [isinstance(value,
    c0)] is [True] for a class [c0] of the decomposed annotation (with the
    default metaclass: its runtime type is [c0] or a subclass of it) passes
    the pre-check and the outcome is the validator's, called with
    [strict=True], provided [isinstance] answers [False] (and does not
    raise) for every member before [c0] in the decomposition. *)
Theorem C9_isinstance_precheck instancecheck annot_str (c : CollectionClass)
  (v : pyval) (pre post : list tyobj) (c0 : cls) (l : loc) :
  config_get (validate_assignment (model_config c))
    _DEFAULT_VALIDATE_ASSIGNMENT = true ->
  config_get (validate_assignment_strict (model_config c))
    _DEFAULT_VALIDATE_ASSIGNMENT_STRICT = true ->
  get_types_from_annotation (annotation (__element__ c)) = pre ++ TClass c0 :: post ->
  isinstance_tuple instancecheck v pre = Ok false ->
  type_of v = c0 \/ instancecheck c0 v = Ok true ->
  _validate_element instancecheck annot_str c v l =
    match adapter (__element__ c) v true true with
    | inl v' => Ok v'
    | inr errors =>
        Raise (ValidationError (class_name c) (wrap_errors_with_loc errors l))
    end.
Proof.
  intros Hva Hs Hdec Hpre Hin.
  apply validate_element_reaches_validator; [exact Hva|].
  left. split; [exact Hs|]. split; [|reflexivity].
  rewrite Hdec. apply isinstance_tuple_found; assumption.
Qed.

Lemma C9_witness :
  (get_types_from_annotation (annotation (__element__ UsersSequence)) =
     [] ++ TClass cls_User :: [] /\
   type_of sub_user <> cls_User /\
   demo_instancecheck cls_User sub_user = Ok true) /\
  _validate_element demo_instancecheck demo_annot_str UsersSequence sub_user [LInt 0] =
    Ok sub_user.
Proof.
  split; [split; [reflexivity | split; [discriminate | reflexivity]]|].
  exact (C9_isinstance_precheck demo_instancecheck demo_annot_str UsersSequence sub_user
           [] [] cls_User [LInt 0] eq_refl eq_refl eq_refl eq_refl
           (or_intror eq_refl)).
Defined.

(** C10 (counterexample): (a) a zero step is defaulted too: [slice(0, 2, 0)]
    resolves to [range(0, 2, 1)], while keeping the non-[None] step gives
    [range(0, 2, 0)], a [ValueError]; (b) [slice(-1, -1)] on a three-element
    sequence has negative bounds, yet it resolves to the same (empty) index
    set as Python's slice positions. *)
Lemma C10_counterexample :
  _get_index_range 3 (mkSlice (Some 0) (Some 2) (Some 0)) = Ok [0; 1] /\
  range 0 2 0 = Raise (ValueError "range() arg 3 must not be zero") /\
  _get_index_range 3 (mkSlice (Some (-1)) (Some (-1)) None) = Ok [] /\
  slice_positions (mkSlice (Some (-1)) (Some (-1)) None) 3 = Ok [].
Proof. repeat split. Qed.

(** C10 (amended): slice assignment resolves its indices as
    [range(start, stop, step')] with [None] start as 0, [None] stop as the
    current length and [step'] = 1 when the step is [None] or 0, the given
    step otherwise; for a positive [step'] an index is resolved exactly when
    it lies in [start, stop) on the step's grid, negative bounds taken
    verbatim. So some negatively bounded slices resolve differently from
    Python's slice positions: [slice(-3, None)] on three elements resolves to
    [-3 .. 2], Python selects [0, 1, 2]. *)
Theorem C10_index_range (n : Z) (sl : pyslice) :
  let step' := match sl_step sl with
               | None => 1
               | Some s => if s =? 0 then 1 else s
               end in
  let start := match sl_start sl with None => 0 | Some s => s end in
  let stop := match sl_stop sl with None => n | Some s => s end in
  _get_index_range n sl = Ok (range_list start stop step') /\
  (0 < step' ->
   forall i, In i (range_list start stop step') <->
             start <= i < stop /\ (i - start) mod step' = 0) /\
  _get_index_range 3 (mkSlice (Some (-3)) None None) = Ok [-3; -2; -1; 0; 1; 2] /\
  slice_positions (mkSlice (Some (-3)) None None) 3 = Ok [0; 1; 2].
Proof.
  intros step' start stop. split; [|split; [|split; reflexivity]].
  - unfold _get_index_range, range, step', start, stop.
    destruct (sl_step sl) as [s|]; simpl; [|reflexivity].
    destruct (Z.eqb_spec s 0); simpl; [reflexivity|].
    replace (s =? 0) with false by (symmetry; apply Z.eqb_neq; assumption).
    reflexivity.
  - intros Hs i. apply range_list_In. exact Hs.
Qed.

Lemma C10_witness :
  (0 < 2 /\ In 4 (range_list 0 7 2)) /\
  (0 <= 4 < 7 /\ (4 - 0) mod 2 = 0).
Proof.
  split; [split; [lia | simpl; tauto]|].
  exact (proj1 (proj1 (proj2 (C10_index_range 7 (mkSlice None None (Some 2))))
                  ltac:(vm_compute; reflexivity) 4) ltac:(vm_compute; auto 10)).
Defined.

End Claims.

Module SpecClaims.
Import PyModel Core Specialize SpecFacts SpecDemo.

Section Meta.

Variable is_collection_model : cls -> bool.
Variable TypeAdapter_new : annot -> res TypeAdapter.
Variable hashable : annot -> bool.

(** C8: for a hashable element type, a second specialization of the same
    base class with the same type returns the class of the first, from the
    cache, leaving the state as it is; for an unhashable one the cache is
    bypassed: each of two successive specializations builds a class of its
    own carrying an [Element] of its own, and the cache is not touched. *)
Theorem C8_specialization_cache (c : cls) (a : annot) (w : World) :
  (hashable a = true ->
   forall k,
   fst (class_getitem is_collection_model TypeAdapter_new hashable c a w) = Ok k ->
   let w1 := snd (class_getitem is_collection_model TypeAdapter_new hashable c a w) in
   class_getitem is_collection_model TypeAdapter_new hashable c a w1 = (Ok k, w1)) /\
  (hashable a = false ->
   forall k1 w1 k2 w2,
   class_getitem is_collection_model TypeAdapter_new hashable c a w = (Ok k1, w1) ->
   class_getitem is_collection_model TypeAdapter_new hashable c a w1 = (Ok k2, w2) ->
   cache w2 = cache w /\ k1 <> k2 /\
   exists e1 e2 ad1 ad2, e1 <> e2 /\
     find_class k1 (classes w2) = Some (mkSpecClass k1 c (mkElementObj e1 a ad1)) /\
     find_class k2 (classes w2) = Some (mkSpecClass k2 c (mkElementObj e2 a ad2))).
Proof.
  split.
  - intros Hh k. unfold class_getitem, tp_cache, lru_cached.
    rewrite Hh.
    destruct (cache_lookup (c, a) (cache w)) as [r|] eqn:L.
    + simpl. intros H. inversion H; subst. simpl. rewrite L. reflexivity.
    + destruct (meta_getitem is_collection_model TypeAdapter_new c a w)
        as [[r|e] w'] eqn:M.
      * cbn [fst snd]. intros H. inversion H; subst.
        rewrite cache_lookup_store. reflexivity.
      * destruct (meta_getitem_raise _ _ _ _ _ _ _ M) as [-> Hall].
        destruct e; simpl; try (intros H; discriminate H).
        rewrite Hall. simpl. intros H; discriminate H.
  - intros Hh k1 w1 k2 w2 H1 H2.
    rewrite class_getitem_unhashable in H1, H2 by exact Hh.
    destruct (meta_getitem_ok _ _ _ _ _ _ _ H1) as [ad1 [-> ->]].
    destruct (meta_getitem_ok _ _ _ _ _ _ _ H2) as [ad2 [-> ->]].
    assert (E : Nat.eqb (S (S (S (next_id w)))) (S (next_id w)) = false)
      by (apply Nat.eqb_neq; lia).
    cbn [cache classes next_id find_class sc_id].
    split; [reflexivity|]. split; [lia|].
    exists (next_id w), (S (S (next_id w))), ad1, ad2. split; [lia|].
    rewrite E, !Nat.eqb_refl. split; reflexivity.
Qed.

End Meta.

End SpecClaims.

Module SpecWitness.
Import PyModel Core Specialize SpecClaims SpecDemo Demo.

Lemma C8_witness :
  (demo_hashable (AClass cls_User) = true /\
   fst (class_getitem demo_is_collection_model demo_TypeAdapter_new
          demo_hashable 20 (AClass cls_User) demo_world) = Ok 101%nat) /\
  class_getitem demo_is_collection_model demo_TypeAdapter_new demo_hashable
    20 (AClass cls_User)
    (snd (class_getitem demo_is_collection_model demo_TypeAdapter_new
            demo_hashable 20 (AClass cls_User) demo_world)) =
  (Ok 101%nat,
   snd (class_getitem demo_is_collection_model demo_TypeAdapter_new
          demo_hashable 20 (AClass cls_User) demo_world)).
Proof.
  split; [split; reflexivity|].
  exact (proj1 (C8_specialization_cache demo_is_collection_model
                  demo_TypeAdapter_new demo_hashable 20 (AClass cls_User)
                  demo_world) eq_refl 101%nat eq_refl).
Defined.

End SpecWitness.

Module ExtraFacts.
Import PyModel Core PyList Sequence SequenceOps.
Open Scope Z_scope.

(** The position an in-range int index [i] designates. *)
Lemma norm_index_range {A} (r : list A) (i : Z) :
  - py_len r <= i < py_len r ->
  let j := if i <? 0 then i + py_len r else i in
  0 <= j < py_len r.
Proof.
  intros H j. subst j. destruct (Z.ltb_spec i 0); lia.
Qed.

Lemma in_range_test (j n : Z) :
  0 <= j < n -> (0 <=? j) && (j <? n) = true.
Proof.
  intros H. apply andb_true_intro. split; [apply Z.leb_le | apply Z.ltb_lt]; lia.
Qed.

Lemma out_of_range_test (j n : Z) :
  ~ (0 <= j < n) -> (0 <=? j) && (j <? n) = false.
Proof.
  intros H. destruct (Z.leb_spec 0 j), (Z.ltb_spec j n); simpl; auto; lia.
Qed.

Lemma length_splice {A} (r : list A) (n : nat) (x : A) :
  (n < List.length r)%nat ->
  List.length (firstn n r ++ x :: skipn (S n) r) = List.length r.
Proof.
  intros H. rewrite length_app, length_firstn, length_cons, length_skipn. lia.
Qed.

Lemma nth_error_splice_at {A} (r : list A) (n : nat) (x : A) :
  (n < List.length r)%nat ->
  nth_error (firstn n r ++ x :: skipn (S n) r) n = Some x.
Proof.
  intros H. rewrite nth_error_app2; rewrite length_firstn; [|lia].
  replace (n - Nat.min n (List.length r))%nat with 0%nat by lia. reflexivity.
Qed.

Lemma nth_error_splice_other {A} (r : list A) (n m : nat) (x : A) :
  (n < List.length r)%nat -> m <> n ->
  nth_error (firstn n r ++ x :: skipn (S n) r) m = nth_error r m.
Proof.
  intros H Hmn. destruct (Nat.lt_ge_cases m n) as [Hlt | Hge].
  - rewrite nth_error_app1 by (rewrite length_firstn; lia).
    rewrite nth_error_firstn. apply Nat.ltb_lt in Hlt. rewrite Hlt. reflexivity.
  - rewrite nth_error_app2 by (rewrite length_firstn; lia).
    rewrite length_firstn. replace (Nat.min n (List.length r)) with n by lia.
    destruct (m - n)%nat as [|k] eqn:E; [lia|]. cbn [nth_error].
    rewrite nth_error_skipn. f_equal. lia.
Qed.

Lemma list_setitem_nat {A} (r : list A) (n : nat) (x : A) :
  (n < List.length r)%nat ->
  list_setitem r (Z.of_nat n) x = Ok (firstn n r ++ x :: skipn (S n) r).
Proof.
  intros H. unfold list_setitem, py_len.
  replace (Z.of_nat n <? 0) with false by (symmetry; apply Z.ltb_ge; lia).
  rewrite in_range_test by lia. rewrite Nat2Z.id. reflexivity.
Qed.

Lemma range_list_step1 (a s m : nat) :
  map (fun k => Z.of_nat a + Z.of_nat k * 1) (seq s m) = map Z.of_nat (seq (a + s) m).
Proof.
  revert s. induction m as [|m IH]; intros s; simpl; [reflexivity|].
  rewrite IH. f_equal; [lia | f_equal; f_equal; lia].
Qed.

Lemma range_list_contiguous (a b : nat) :
  (a <= b)%nat ->
  range_list (Z.of_nat a) (Z.of_nat b) 1 = map Z.of_nat (seq a (b - a)).
Proof.
  intros H. unfold range_list, range_len. simpl.
  replace (Z.max 0 ((Z.of_nat b - Z.of_nat a + 1 - 1) / 1)) with (Z.of_nat (b - a)).
  - rewrite Nat2Z.id, range_list_step1, Nat.add_0_r. reflexivity.
  - rewrite Z.div_1_r. lia.
Qed.

Section Zip.

Variable instancecheck : cls -> pyval -> res bool.
Variable annot_str : annot -> string.
Variable c : CollectionClass.

(** Assigning valid values to consecutive positions inside the list. *)
Lemma setitem_zip_contiguous values vs' :
  Forall2 (fun v v' => forall l, _validate_element instancecheck annot_str c v l = Ok v')
    values vs' ->
  forall (j : nat) r,
  (j + List.length values <= List.length r)%nat ->
  setitem_zip instancecheck annot_str c (map Z.of_nat (seq j (List.length values))) values r
  = (Ok tt, firstn j r ++ vs' ++ skipn (j + List.length values) r).
Proof.
  induction 1 as [|v v' vs vs'' Hv Hall IH]; intros j r Hlen.
  - simpl. rewrite Nat.add_0_r, firstn_skipn. reflexivity.
  - simpl in Hlen |- *. unfold bind at 1. unfold setitem_int, bind, lift, get, put.
    unfold _validate_sequence_element. rewrite Hv.
    rewrite list_setitem_nat by lia.
    rewrite IH by (rewrite length_app, length_firstn, length_cons, length_skipn; lia).
    f_equal.
    rewrite firstn_app, length_firstn.
    replace (S j - Nat.min j (List.length r))%nat with 1%nat by lia.
    rewrite firstn_firstn, Nat.min_r by lia. cbn [firstn].
    rewrite skipn_app, (skipn_all2 (firstn j r)) by (rewrite length_firstn; lia).
    rewrite length_firstn.
    replace (S j + List.length vs - Nat.min j (List.length r))%nat
      with (S (List.length vs)) by lia.
    change (skipn (S ?L) (?y :: ?x)) with (skipn L x).
    rewrite skipn_skipn, <- app_assoc. cbn [app].
    do 4 f_equal. lia.
Qed.

End Zip.

End ExtraFacts.

Module SeqExtras.
Import PyModel Core PyList Sequence SequenceOps ExtraFacts.
Open Scope Z_scope.

Section Methods.

Variable instancecheck : cls -> pyval -> res bool.
Variable annot_str : annot -> string.

(** X5: an item assignment at an in-range index, once its value is
    validated, stores the validated value there: reading the index back
    returns it, the length is kept and every other position is untouched. *)
Theorem X5_setitem_then_getitem c i v v' r :
  _validate_sequence_element instancecheck annot_str c v i = Ok v' ->
  - py_len r <= i < py_len r ->
  exists r',
    setitem_int instancecheck annot_str c i v r = (Ok tt, r') /\
    List.length r' = List.length r /\
    fst (getitem_int i r') = Ok v' /\
    (forall m, m <> Z.to_nat (if i <? 0 then i + py_len r else i) ->
       nth_error r' m = nth_error r m).
Proof.
  intros Hv Hi.
  pose proof (norm_index_range r i Hi) as Hj. cbv zeta in Hj.
  set (j := if i <? 0 then i + py_len r else i) in *.
  assert (Hn : (Z.to_nat j < List.length r)%nat) by (unfold py_len in Hj; lia).
  exists (firstn (Z.to_nat j) r ++ v' :: skipn (S (Z.to_nat j)) r).
  pose proof (length_splice r (Z.to_nat j) v' Hn) as Hlen.
  split; [| split; [exact Hlen | split]].
  - unfold setitem_int, bind, lift, get, put. rewrite Hv.
    unfold list_setitem. cbv zeta. fold j.
    rewrite (in_range_test j (py_len r) Hj). reflexivity.
  - unfold getitem_int, bind, get, lift, list_getitem. cbv zeta.
    assert (Hl : py_len (firstn (Z.to_nat j) r ++ v' :: skipn (S (Z.to_nat j)) r)
                 = py_len r) by (unfold py_len; rewrite Hlen; reflexivity).
    rewrite Hl. fold j. rewrite (in_range_test j (py_len r) Hj).
    rewrite nth_error_splice_at by exact Hn. reflexivity.
  - intros m Hm. apply nth_error_splice_other; assumption.
Qed.

(** X6: an out-of-range int index raises [IndexError] for reading, for
    deleting and, once the value is validated, for assigning; the list is
    left as it was. *)
Theorem X6_index_error_out_of_range c i v v' r :
  _validate_sequence_element instancecheck annot_str c v i = Ok v' ->
  (i < - py_len r \/ py_len r <= i) ->
  setitem_int instancecheck annot_str c i v r = (Raise IndexError, r) /\
  getitem_int i r = (Raise IndexError, r) /\
  delitem_int i r = (Raise IndexError, r).
Proof.
  intros Hv Hi.
  assert (Hout : ~ (0 <= (if i <? 0 then i + py_len r else i) < py_len r))
    by (destruct (Z.ltb_spec i 0); lia).
  assert (Ht := out_of_range_test _ _ Hout).
  split; [|split].
  - unfold setitem_int, bind, lift, get, put. rewrite Hv.
    unfold list_setitem. cbv zeta. rewrite Ht. reflexivity.
  - unfold getitem_int, bind, lift, get, list_getitem. cbv zeta.
    rewrite Ht. reflexivity.
  - unfold delitem_int, bind, lift, get, list_delitem. cbv zeta.
    rewrite Ht. reflexivity.
Qed.

(** X7: [insert] puts the validated value at the clamped position: the
    list grows by one, the items before that position are those before it,
    and the items after it are the rest of the list. *)
Theorem X7_insert_at_clamped_position c i v v' r :
  _validate_sequence_element instancecheck annot_str c v i = Ok v' ->
  let j := Z.to_nat (if i <? 0 then Z.max 0 (i + py_len r)
                     else Z.min i (py_len r)) in
  exists r',
    insert instancecheck annot_str c i v r = (Ok tt, r') /\
    List.length r' = S (List.length r) /\
    nth_error r' j = Some v' /\
    firstn j r' = firstn j r /\
    skipn (S j) r' = skipn j r.
Proof.
  intros Hv j.
  assert (Hj : (j <= List.length r)%nat)
    by (subst j; unfold py_len; destruct (Z.ltb_spec i 0); lia).
  assert (Hf : List.length (firstn j r) = j) by (rewrite length_firstn; lia).
  exists (firstn j r ++ v' :: skipn j r).
  split; [|split; [|split; [|split]]].
  - unfold insert, bind, lift, get, put. rewrite Hv. reflexivity.
  - rewrite length_app, length_cons, length_skipn, Hf. lia.
  - rewrite nth_error_app2 by lia. rewrite Hf, Nat.sub_diag. reflexivity.
  - rewrite firstn_app, Hf, Nat.sub_diag, firstn_firstn, Nat.min_id, app_nil_r.
    reflexivity.
  - rewrite skipn_app, Hf, skipn_all2 by lia.
    replace (S j - j)%nat with 1%nat by lia. reflexivity.
Qed.

(** X8: deleting at the non-negative index just passed to [insert] undoes
    the insertion. *)
Theorem X8_insert_then_delitem c i v v' r :
  _validate_sequence_element instancecheck annot_str c v i = Ok v' ->
  0 <= i <= py_len r ->
  (insert instancecheck annot_str c i v ;;; delitem_int i) r = (Ok tt, r).
Proof.
  intros Hv Hi. unfold py_len in Hi.
  unfold bind at 1. unfold insert, bind, lift, get, put. rewrite Hv.
  unfold list_insert, py_len.
  replace (i <? 0) with false by (symmetry; apply Z.ltb_ge; lia).
  rewrite Z.min_l by lia.
  set (r1 := firstn (Z.to_nat i) r ++ v' :: skipn (Z.to_nat i) r).
  assert (Hf : List.length (firstn (Z.to_nat i) r) = Z.to_nat i)
    by (rewrite length_firstn; lia).
  assert (Hl : List.length r1 = S (List.length r))
    by (subst r1; rewrite length_app, length_cons, length_skipn, Hf; lia).
  unfold delitem_int, bind, get, lift, put, list_delitem, py_len.
  rewrite Hl.
  replace (i <? 0) with false by (symmetry; apply Z.ltb_ge; lia).
  rewrite in_range_test by lia.
  subst r1. rewrite firstn_app, Hf, Nat.sub_diag, firstn_firstn, Nat.min_id, app_nil_r.
  rewrite skipn_app, Hf, skipn_all2 by lia.
  replace (S (Z.to_nat i) - Z.to_nat i)%nat with 1%nat by lia.
  cbn [skipn app]. rewrite firstn_skipn. reflexivity.
Qed.

(** X9: deleting an in-range int index removes exactly the item at its
    position, with no validation. *)
Theorem X9_delitem_removes_one i r :
  - py_len r <= i < py_len r ->
  let j := Z.to_nat (if i <? 0 then i + py_len r else i) in
  exists x r',
    nth_error r j = Some x /\
    delitem_int i r = (Ok tt, r') /\
    r = firstn j r' ++ x :: skipn j r'.
Proof.
  intros Hi j.
  pose proof (norm_index_range r i Hi) as Hj. cbv zeta in Hj.
  set (k := if i <? 0 then i + py_len r else i) in *.
  assert (Hn : (j < List.length r)%nat) by (unfold j; unfold py_len in Hj; lia).
  destruct (nth_error r j) as [x|] eqn:Ex;
    [| apply nth_error_None in Ex; lia].
  exists x, (firstn j r ++ skipn (S j) r).
  split; [reflexivity|split].
  - unfold delitem_int, bind, get, lift, put, list_delitem. cbv zeta. fold k.
    rewrite (in_range_test _ _ Hj). reflexivity.
  - assert (Hf : List.length (firstn j r) = j) by (rewrite length_firstn; lia).
    rewrite firstn_app, Hf, Nat.sub_diag, firstn_firstn, Nat.min_id, app_nil_r.
    rewrite skipn_app, Hf, skipn_all2 by lia. rewrite Nat.sub_diag. cbn [skipn app].
    symmetry. apply firstn_skipn_middle. exact Ex.
Qed.

(** X10: a contiguous slice [a:b] inside the list, assigned as many valid
    values as it selects, is replaced by the validated values. *)
Theorem X10_contiguous_slice_assignment c (a b : nat) values vs' r :
  (a <= b <= List.length r)%nat ->
  List.length values = (b - a)%nat ->
  Forall2 (fun v v' => forall l, _validate_element instancecheck annot_str c v l = Ok v')
    values vs' ->
  setitem_slice instancecheck annot_str c
    (mkSlice (Some (Z.of_nat a)) (Some (Z.of_nat b)) None) values r
  = (Ok tt, firstn a r ++ vs' ++ skipn b r).
Proof.
  intros Hab Hlen Hall.
  unfold setitem_slice, bind, get, lift, _get_index_range, range. simpl.
  rewrite range_list_contiguous by lia. rewrite <- Hlen.
  rewrite (setitem_zip_contiguous instancecheck annot_str c values vs' Hall a r) by lia.
  do 4 f_equal. lia.
Qed.

End Methods.

(** X11: for a slice whose given bounds lie in [0, n] and whose step is
    positive or omitted, the positions [_get_index_range] assigns are the
    ones Python's [slice.indices] selects. *)
Theorem X11_index_range_matches_slice (n : Z) (sl : pyslice) :
  0 <= n ->
  match sl_start sl with None => True | Some a => 0 <= a <= n end ->
  match sl_stop sl with None => True | Some b => 0 <= b <= n end ->
  match sl_step sl with None => True | Some s => 0 < s end ->
  _get_index_range n sl = slice_positions sl n.
Proof.
  intros Hn Ha Hb Hs.
  destruct sl as [[a|] [b|] [s|]]; simpl in Ha, Hb, Hs;
  unfold _get_index_range, slice_positions, slice_indices, range; simpl;
  repeat match goal with
         | |- context [?x =? ?y] =>
             replace (x =? y) with false by (symmetry; apply Z.eqb_neq; lia)
         | |- context [?x <? ?y] =>
             replace (x <? y) with false by (symmetry; apply Z.ltb_ge; lia)
         end; simpl;
  repeat rewrite (Z.min_r n) by lia; reflexivity.
Qed.

End SeqExtras.

Module SortFacts.
Import PyModel SequenceOps.

Section Insort.

Variable before : pyval -> pyval -> bool.

Lemma insort_perm x l : Permutation (insort_by before x l) (x :: l).
Proof.
  induction l as [|y l IH]; simpl; [reflexivity|].
  destruct (before x y); [reflexivity|].
  eapply perm_trans; [apply perm_skip, IH | apply perm_swap].
Qed.

Lemma fold_insort_perm l : Permutation (fold_right (insort_by before) [] l) l.
Proof.
  induction l as [|x l IH]; simpl; [reflexivity|].
  eapply perm_trans; [apply insort_perm | apply perm_skip, IH].
Qed.

Variable R : pyval -> pyval -> Prop.
Hypothesis before_true : forall x y, before x y = true -> R x y.
Hypothesis before_false : forall x y, before x y = false -> R y x.

Lemma insort_hdrel y x l :
  HdRel R y l -> R y x -> HdRel R y (insort_by before x l).
Proof.
  intros H Hyx. destruct l as [|z l]; simpl; [constructor; exact Hyx|].
  destruct (before x z); constructor; [exact Hyx | inversion H; assumption].
Qed.

Lemma insort_sorted x l : Sorted R l -> Sorted R (insort_by before x l).
Proof.
  induction l as [|y l IH]; intros HS; simpl.
  - repeat constructor.
  - destruct (before x y) eqn:E.
    + constructor; [exact HS | constructor; apply before_true; exact E].
    + inversion HS as [|? ? HSl Hhd]; subst. constructor; [apply IH; exact HSl|].
      apply insort_hdrel; [exact Hhd | apply before_false; exact E].
Qed.

Lemma fold_insort_sorted l : Sorted R (fold_right (insort_by before) [] l).
Proof.
  induction l as [|x l IH]; simpl; [constructor|]. apply insort_sorted, IH.
Qed.

End Insort.

Section Stable.

Variable before : pyval -> pyval -> bool.
Variable key : pyval -> Z.
Variable k : Z.

Lemma insort_filter x l :
  (forall y, key y = key x -> before x y = true) ->
  filter (fun z => Z.eqb (key z) k) (insort_by before x l)
  = filter (fun z => Z.eqb (key z) k) (x :: l).
Proof.
  intros Hx. induction l as [|y l IH]; simpl; [reflexivity|].
  destruct (before x y) eqn:E; [reflexivity|].
  assert (Hne : key y <> key x) by (intros Heq; rewrite (Hx y Heq) in E; discriminate).
  simpl. rewrite IH. simpl.
  destruct (Z.eqb_spec (key y) k), (Z.eqb_spec (key x) k); try reflexivity; lia.
Qed.

Lemma fold_insort_filter l :
  (forall x y, key y = key x -> before x y = true) ->
  filter (fun z => Z.eqb (key z) k) (fold_right (insort_by before) [] l)
  = filter (fun z => Z.eqb (key z) k) l.
Proof.
  intros Hb. induction l as [|x l IH]; simpl; [reflexivity|].
  rewrite insort_filter by auto. simpl. rewrite IH. reflexivity.
Qed.

End Stable.

End SortFacts.

Module MapFacts.
Import PyModel PyList MappingOps.

Lemma lookup_setitem {A} (d : list (string * A)) k v k' :
  dict_lookup (dict_setitem d k v) k' =
  if String.eqb k' k then Some v else dict_lookup d k'.
Proof.
  induction d as [|[k0 v0] d IH]; simpl.
  - reflexivity.
  - destruct (String.eqb_spec k k0) as [->|Hne]; simpl.
    + destruct (String.eqb k' k0); reflexivity.
    + rewrite IH. destruct (String.eqb_spec k' k0) as [->|]; [|reflexivity].
      apply String.eqb_neq in Hne. rewrite String.eqb_sym, Hne. reflexivity.
Qed.

Lemma keys_setitem (d : list (string * pyval)) k v :
  keys (dict_setitem d k v) =
  if existsb (String.eqb k) (keys d) then keys d else keys d ++ [k].
Proof.
  unfold keys. induction d as [|[k0 v0] d IH]; simpl; [reflexivity|].
  destruct (String.eqb_spec k k0) as [->|Hne]; simpl; [reflexivity|].
  rewrite IH. destruct (existsb (String.eqb k) (map fst d)); reflexivity.
Qed.

Lemma lookup_notin {A} (d : list (string * A)) k :
  ~ In k (map fst d) -> dict_lookup d k = None.
Proof.
  induction d as [|[k0 v0] d IH]; simpl; intros H; [reflexivity|].
  destruct (String.eqb_spec k k0); [exfalso; auto|]. apply IH. auto.
Qed.

Lemma lookup_in {A} (d : list (string * A)) k v :
  dict_lookup d k = Some v -> In k (map fst d).
Proof.
  induction d as [|[k0 v0] d IH]; simpl; intros H; [discriminate|].
  destruct (String.eqb_spec k k0); auto.
Qed.



Lemma lookup_remove_other (d : list (string * pyval)) k k' :
  k' <> k -> dict_lookup (dict_remove d k) k' = dict_lookup d k'.
Proof.
  intros Hne. induction d as [|[k0 v0] d IH]; simpl; [reflexivity|].
  destruct (String.eqb_spec k k0) as [->|]; simpl.
  - apply String.eqb_neq in Hne. rewrite Hne. reflexivity.
  - rewrite IH. reflexivity.
Qed.

Lemma lookup_remove_same (d : list (string * pyval)) k :
  NoDup (keys d) -> dict_lookup (dict_remove d k) k = None.
Proof.
  unfold keys. induction d as [|[k0 v0] d IH]; simpl; intros H; [reflexivity|].
  inversion H as [|? ? Hnin Hnd]; subst.
  destruct (String.eqb_spec k k0) as [->|Hne]; simpl.
  - apply lookup_notin. exact Hnin.
  - apply String.eqb_neq in Hne. rewrite Hne. apply IH, Hnd.
Qed.

Lemma length_remove (d : list (string * pyval)) k v :
  dict_lookup d k = Some v -> List.length (dict_remove d k) = pred (List.length d).
Proof.
  induction d as [|[k0 v0] d IH]; simpl; intros H; [discriminate|].
  destruct (String.eqb k k0); [reflexivity|]. simpl. rewrite IH by exact H.
  destruct d; simpl in *; [discriminate|reflexivity].
Qed.


Lemma lookup_dict_or (data acc : list (string * pyval)) k :
  NoDup (keys data) ->
  dict_lookup (dict_or acc data) k =
  match dict_lookup data k with Some v => Some v | None => dict_lookup acc k end.
Proof.
  unfold dict_or, keys. revert acc.
  induction data as [|[k0 v0] data IH]; intros acc H; simpl; [reflexivity|].
  inversion H as [|? ? Hnin Hnd]; subst.
  rewrite IH by exact Hnd. simpl. rewrite lookup_setitem.
  destruct (String.eqb_spec k k0) as [->|]; [|reflexivity].
  rewrite (lookup_notin data k0 Hnin). reflexivity.
Qed.

End MapFacts.

Module MoreExtras.
Import PyModel Core PyList Sequence SequenceOps MappingOps SortFacts MapFacts.

(** X2: wrapping composes: wrapping errors already wrapped with [l1] in
    [l2] prefixes [l2 ++ l1]; the empty prefix changes nothing; error
    types, inputs and contexts are kept. *)
Theorem X2_wrap_errors_compose (errors : list err) (l1 l2 : loc) :
  wrap_errors_with_loc (wrap_errors_with_loc errors l1) l2
    = wrap_errors_with_loc errors (l2 ++ l1) /\
  wrap_errors_with_loc errors [] = errors /\
  map (fun e => (err_type e, err_input e, err_ctx e))
      (wrap_errors_with_loc errors l1)
    = map (fun e => (err_type e, err_input e, err_ctx e)) errors.
Proof.
  unfold wrap_errors_with_loc. split; [|split].
  - rewrite map_map. apply map_ext. intros e. simpl. rewrite app_assoc. reflexivity.
  - rewrite <- (map_id errors) at 2. apply map_ext. intros [t l i x]. reflexivity.
  - rewrite map_map. reflexivity.
Qed.

Lemma get_types_union args :
  get_types_from_annotation (AUnion args)
  = flat_map get_types_from_annotation args.
Proof.
  induction args as [|a args IH]; [reflexivity|].
  simpl in *. rewrite IH. reflexivity.
Qed.

(** X3: a union nested in a union expands like the flattened union, and a
    one-member union like its member. *)
Theorem X3_nested_union_flattens (xs ys zs : list annot) (a : annot) :
  get_types_from_annotation (AUnion (xs ++ AUnion ys :: zs))
    = get_types_from_annotation (AUnion (xs ++ ys ++ zs)) /\
  get_types_from_annotation (AUnion [a]) = get_types_from_annotation a.
Proof.
  rewrite !get_types_union, !flat_map_app. cbn [flat_map]. rewrite get_types_union.
  split; [|apply app_nil_r]. rewrite app_assoc. reflexivity.
Qed.

Section Runtime.

Variable instancecheck : cls -> pyval -> res bool.
Variable annot_str : annot -> string.

(** [isinstance] over classes whose metaclasses answer without raising. *)
Lemma isinstance_classes v ts :
  Forall (fun t => exists c0 b, t = TClass c0 /\ instancecheck c0 v = Ok b) ts ->
  (isinstance_tuple instancecheck v ts = Ok true \/
   isinstance_tuple instancecheck v ts = Ok false) /\
  (isinstance_tuple instancecheck v ts = Ok true <->
   exists c0, In (TClass c0) ts /\
              (type_of v = c0 \/ instancecheck c0 v = Ok true)).
Proof.
  induction 1 as [|t ts [c0 [b [-> Hb]]] Hall IH]; simpl.
  - split; [auto|]. split; [discriminate | intros [? [[] _]]].
  - destruct (Nat.eqb_spec (type_of v) c0) as [Heq|Hne]; simpl.
    + split; [auto|]. split; [intros _; exists c0; auto | auto].
    + rewrite Hb. destruct b; simpl.
      * split; [auto|]. split; [intros _; exists c0; auto | auto].
      * destruct IH as [IH1 IH2]. split; [exact IH1|]. rewrite IH2.
        split; [intros [c1 [Hin Hm]]; eauto|].
        intros [c1 [[Heq|Hin] Hm]]; [|eauto].
        inversion Heq; subst. exfalso.
        destruct Hm as [Hm|Hm]; [exact (Hne Hm) | congruence].
Qed.

(** X4: when the element annotation expands to classes whose metaclasses
    answer [isinstance] without raising, the strict pre-check never raises
    [TypeError]: it passes exactly when the value's type is one of the
    classes or one of them answers [isinstance] with [True], and otherwise
    raises the single [is_instance_of] error. *)
Theorem X4_precheck_decided_by_isinstance c v l :
  Forall (fun t => exists c0 b, t = TClass c0 /\ instancecheck c0 v = Ok b)
    (get_types_from_annotation (annotation (__element__ c))) ->
  (_validate_element_type instancecheck annot_str c v l = Ok tt <->
   exists c0, In (TClass c0) (get_types_from_annotation (annotation (__element__ c)))
              /\ (type_of v = c0 \/ instancecheck c0 v = Ok true)) /\
  (_validate_element_type instancecheck annot_str c v l = Ok tt \/
   _validate_element_type instancecheck annot_str c v l =
     Raise (ValidationError (class_name c) [is_instance_of_error annot_str c v l])).
Proof.
  intros Hall. destruct (isinstance_classes v _ Hall) as [[Ht|Hf] Hiff];
    unfold _validate_element_type.
  - rewrite Ht. simpl. split; [|auto]. split; [intros _; apply Hiff, Ht | auto].
  - rewrite Hf. simpl. split; [|auto]. split; [discriminate|].
    intros Hex. apply Hiff in Hex. congruence.
Qed.

(** X1: with [validate_assignment=False] no mutation validates: [insert],
    [append], item assignment and the mapping's [__setitem__] store the
    value as given. *)
Theorem X1_unvalidated_mutations_store_raw c (i : Z) (k : string) v r d :
  config_get (validate_assignment (model_config c)) _DEFAULT_VALIDATE_ASSIGNMENT
    = false ->
  insert instancecheck annot_str c i v r = (Ok tt, list_insert r i v) /\
  append instancecheck annot_str c v r = (Ok tt, r ++ [v]) /\
  setitem_int instancecheck annot_str c i v r =
    match list_setitem r i v with
    | Ok r' => (Ok tt, r')
    | Raise e => (Raise e, r)
    end /\
  Mapping.setitem instancecheck annot_str c k v d = (Ok tt, dict_setitem d k v).
Proof.
  intros H.
  assert (Hv : forall l, _validate_element instancecheck annot_str c v l = Ok v)
    by (intros l; unfold _validate_element; rewrite H; reflexivity).
  split; [|split; [|split]].
  - unfold insert, bind, get, lift, put, _validate_sequence_element. rewrite Hv.
    reflexivity.
  - unfold append, insert, bind, get, lift, put, _validate_sequence_element.
    rewrite Hv. rewrite Facts.list_insert_at_end. reflexivity.
  - unfold setitem_int, bind, get, lift, put, _validate_sequence_element.
    rewrite Hv. destruct (list_setitem r i v); reflexivity.
  - unfold Mapping.setitem, bind, get, lift, put. rewrite Hv. reflexivity.
Qed.

End Runtime.

Lemma sorted_py_perm key reverse l : Permutation (sorted_py key reverse l) l.
Proof. unfold sorted_py. apply fold_insort_perm. Qed.

Lemma validate_items_id (a : TypeAdapter) i xs :
  Forall (fun x => a x false false = inl x) xs ->
  fst (validate_items a i xs) = Some xs.
Proof.
  intros H. revert i. induction H as [|x xs Hx _ IH]; intros i; [reflexivity|].
  simpl. specialize (IH (i + 1)).
  destruct (validate_items a (i + 1) xs) as [vs es]. simpl in IH. subst vs.
  rewrite Hx. reflexivity.
Qed.

Lemma validate_items_fail (a : TypeAdapter) i xs x e :
  In x xs -> a x false false = inr e ->
  fst (validate_items a i xs) = None.
Proof.
  revert i. induction xs as [|y xs IH]; intros i Hin He; [destruct Hin|].
  simpl. destruct (validate_items a (i + 1) xs) as [vs es] eqn:E.
  destruct Hin as [->|Hin].
  - rewrite He. reflexivity.
  - specialize (IH (i + 1) Hin He). rewrite E in IH. simpl in IH. subst vs.
    destruct (a y false false); reflexivity.
Qed.

(** [sort] on items the root validator keeps as they are stores the sorted
    list. *)
Lemma sort_validated c key reverse r :
  Forall (fun x => adapter (__element__ c) x false false = inl x) r ->
  sort c key reverse r = (Ok tt, sorted_py key reverse r).
Proof.
  intros H. unfold sort, bind, get, put.
  destruct (config_get _ _); [|reflexivity].
  assert (Hs : Forall (fun x => adapter (__element__ c) x false false = inl x)
                 (sorted_py key reverse r)).
  { rewrite Forall_forall in *. intros x Hx. apply H.
    eapply Permutation_in; [apply sorted_py_perm | exact Hx]. }
  pose proof (validate_items_id _ 0 _ Hs) as Hv. unfold validate_root.
  destruct (validate_items _ 0 _) as [vs es]. simpl in Hv. subst vs.
  reflexivity.
Qed.

(** X12: on items the root validator keeps unchanged (model instances
    under pydantic's defaults), [sort] does not fail and leaves a
    permutation of the items, ordered by key: ascending, or descending with
    [reverse=True]. *)
Theorem X12_sort_orders_by_key c (key : pyval -> Z) (reverse : bool) r :
  Forall (fun x => adapter (__element__ c) x false false = inl x) r ->
  fst (sort c key reverse r) = Ok tt /\
  Permutation (snd (sort c key reverse r)) r /\
  Sorted (fun x y => if reverse then (key y <= key x)%Z else (key x <= key y)%Z)
    (snd (sort c key reverse r)).
Proof.
  intros H. rewrite (sort_validated c key reverse r H). simpl.
  split; [reflexivity|]. split; [apply sorted_py_perm|].
  unfold sorted_py.
  apply fold_insort_sorted; destruct reverse; intros x y Hb;
    first [apply Z.leb_le in Hb | apply Z.leb_gt in Hb]; lia.
Qed.

(** X13: on items the root validator keeps unchanged, [sort] is stable in
    both directions: the items of any one key keep their relative order. *)
Theorem X13_sort_is_stable c (key : pyval -> Z) (reverse : bool) r (k : Z) :
  Forall (fun x => adapter (__element__ c) x false false = inl x) r ->
  filter (fun x => Z.eqb (key x) k) (snd (sort c key reverse r))
  = filter (fun x => Z.eqb (key x) k) r.
Proof.
  intros H. rewrite (sort_validated c key reverse r H). simpl.
  unfold sorted_py. apply fold_insort_filter. intros x y Heq.
  destruct reverse; rewrite Heq; apply Z.leb_refl.
Qed.

(** X22: with [validate_assignment] on, when an item fails the root
    validator, [sort] raises [ValidationError] titled with the class name
    and the items stay as they were. *)
Theorem X22_sort_revalidation_fails c (key : pyval -> Z) (reverse : bool) r x e :
  config_get (validate_assignment (model_config c)) _DEFAULT_VALIDATE_ASSIGNMENT
    = true ->
  In x r ->
  adapter (__element__ c) x false false = inr e ->
  exists es, sort c key reverse r = (Raise (ValidationError (class_name c) es), r).
Proof.
  intros Hva Hin He. unfold sort, bind, get, put. rewrite Hva.
  assert (Hin' : In x (sorted_py key reverse r))
    by (eapply Permutation_in; [symmetry; apply sorted_py_perm | exact Hin]).
  pose proof (validate_items_fail _ 0 _ x e Hin' He) as Hv. unfold validate_root.
  destruct (validate_items _ 0 _) as [vs es]. simpl in Hv. subst vs.
  exists es. reflexivity.
Qed.

End MoreExtras.

Module MapExtras.
Import PyModel Core PyList Mapping MappingOps MapFacts.

Section Methods.

Variable instancecheck : cls -> pyval -> res bool.
Variable annot_str : annot -> string.

(** X14: [__setitem__] with a value that validates stores the validated
    value under the key, readable by [__getitem__], and no other key
    changes. *)
Theorem X14_mapping_setitem_then_getitem c k v v' d :
  _validate_element instancecheck annot_str c v [LStr k] = Ok v' ->
  exists d',
    setitem instancecheck annot_str c k v d = (Ok tt, d') /\
    fst (getitem k d') = Ok v' /\
    (forall k', k' <> k -> dict_lookup d' k' = dict_lookup d k').
Proof.
  intros Hv. exists (dict_setitem d k v').
  split; [|split].
  - unfold setitem, bind, lift, get, put. rewrite Hv. reflexivity.
  - unfold getitem, bind, get, lift, dict_getitem. simpl.
    rewrite lookup_setitem, String.eqb_refl. reflexivity.
  - intros k' Hne. rewrite lookup_setitem.
    apply String.eqb_neq in Hne. rewrite Hne. reflexivity.
Qed.

(** X15: iteration order after a successful [__setitem__]: an existing
    key keeps its position and [__len__] is unchanged; a new key is
    appended at the end and [__len__] grows by one. *)
Theorem X15_mapping_setitem_key_order c k v v' d :
  _validate_element instancecheck annot_str c v [LStr k] = Ok v' ->
  keys (snd (setitem instancecheck annot_str c k v d)) =
    (if existsb (String.eqb k) (keys d) then keys d else keys d ++ [k]) /\
  fst (map_len (snd (setitem instancecheck annot_str c k v d))) =
    Ok (if existsb (String.eqb k) (keys d) then List.length d
        else S (List.length d)).
Proof.
  intros Hv. unfold setitem, bind, lift, get, put. rewrite Hv. simpl.
  rewrite keys_setitem. split; [reflexivity|].
  unfold map_len, bind, get, ret. simpl. f_equal.
  rewrite <- (length_map fst d), <- (length_map fst (dict_setitem d k v')).
  fold (keys d). fold (keys (dict_setitem d k v')). rewrite keys_setitem.
  destruct (existsb (String.eqb k) (keys d)); [reflexivity|].
  rewrite length_app. simpl. lia.
Qed.


End Methods.

(** X17: a missing key makes [__getitem__] and [__delitem__] raise
    [KeyError] and leaves the dict as it was. *)
Theorem X17_mapping_missing_key d k :
  dict_lookup d k = None ->
  getitem k d = (Raise KeyError, d) /\ delitem k d = (Raise KeyError, d).
Proof.
  intros H. unfold getitem, delitem, bind, get, lift, put, dict_getitem, dict_delitem.
  rewrite H. split; reflexivity.
Qed.

(** X18: [__delitem__] of a present key removes that key and only it: the
    key is no longer found, every other key maps as before, the length
    drops by one. *)
Theorem X18_mapping_delitem_removes_key d k x :
  NoDup (keys d) ->
  dict_lookup d k = Some x ->
  exists d',
    delitem k d = (Ok tt, d') /\
    getitem k d' = (Raise KeyError, d') /\
    (forall k', k' <> k -> dict_lookup d' k' = dict_lookup d k') /\
    List.length d' = pred (List.length d).
Proof.
  intros Hnd Hk. exists (dict_remove d k).
  split; [|split; [|split]].
  - unfold delitem, bind, get, lift, put, dict_delitem. rewrite Hk. reflexivity.
  - unfold getitem, bind, get, lift, dict_getitem.
    rewrite lookup_remove_same by exact Hnd. reflexivity.
  - intros k' Hne. apply lookup_remove_other, Hne.
  - apply (length_remove d k x Hk).
Qed.

(** X19: the dict [__init__] hands to [RootModel] maps each key to its
    keyword value when one is given, and otherwise to its value in [root]
    (no key at all without [root]). *)
Theorem X19_mapping_init_merges root data k :
  NoDup (keys data) ->
  dict_lookup (mapping_init_root root data) k =
  match dict_lookup data k with
  | Some v => Some v
  | None => match root with Some r => dict_lookup r k | None => None end
  end.
Proof.
  intros H. unfold mapping_init_root. rewrite lookup_dict_or by exact H.
  destruct (dict_lookup data k), root; reflexivity.
Qed.

End MapExtras.

Module PersistExtras.
Import PyModel Core PyList Sequence SequenceOps.
Open Scope Z_scope.

Lemma list_getslice_ok {A} (dflt : A) (l : list A) (sl : pyslice) :
  sl_step sl <> Some 0 ->
  exists sub, list_getslice dflt l sl = Ok sub.
Proof.
  intros H. unfold list_getslice, slice_positions, slice_indices.
  destruct (sl_step sl) as [st|] eqn:E.
  - assert (st <> 0) by congruence.
    replace (st =? 0) with false by (symmetry; apply Z.eqb_neq; assumption).
    eexists. reflexivity.
  - eexists. reflexivity.
Qed.

(** X20: slicing a [PersistentPydanticSequence] with a valid slice raises
    [TypeError]: the inherited [__getitem__] builds the result with
    [self.__class__(...)] and no [persistence_db] nor [persistance_db_key]. *)
Theorem X20_persistent_slice_raises (self : PersistentPydanticSequence)
  (sl : pyslice) :
  sl_step sl <> Some 0 ->
  p_getitem_slice self sl =
  Raise (TypeError "PersistentPydanticSequence.__init__() missing 2 required keyword-only arguments: 'persistence_db' and 'persistance_db_key'").
Proof.
  intros H. unfold p_getitem_slice.
  destruct (list_getslice_ok VNone (root (pseq self)) sl H) as [sub ->].
  reflexivity.
Qed.

End PersistExtras.

Module CacheExtras.
Import PyModel Core Specialize SpecFacts.

Section Meta.

Variable is_collection_model : cls -> bool.
Variable TypeAdapter_new : annot -> res TypeAdapter.
Variable hashable : annot -> bool.

(** X21: a failed specialization leaves no trace: when [Container[T]]
    raises, the cache, the created classes and the identity counter are
    as before the call. *)
Theorem X21_failed_specialization_leaves_state c a w e w' :
  class_getitem is_collection_model TypeAdapter_new hashable c a w = (Raise e, w') ->
  w' = w.
Proof.
  unfold class_getitem, tp_cache, lru_cached.
  destruct (meta_getitem is_collection_model TypeAdapter_new c a w)
    as [[k|e0] w1] eqn:M.
  - destruct (hashable a).
    + destruct (cache_lookup (c, a) (cache w)); [intros H; discriminate H|].
      rewrite ?M. intros H; discriminate H.
    + cbn -[meta_getitem]. rewrite ?M. intros H; discriminate H.
  - destruct (meta_getitem_raise is_collection_model TypeAdapter_new c a w e0 w1 M)
      as [-> Hall].
    destruct (hashable a).
    + destruct (cache_lookup (c, a) (cache w)); [intros H; discriminate H|].
      rewrite ?M. destruct e0; cbn -[meta_getitem]; rewrite ?Hall;
        intros H; inversion H; subst; reflexivity.
    + cbn -[meta_getitem]. rewrite Hall. intros H; inversion H; subst; reflexivity.
Qed.

(** A specialization that misses the cache stores its class under the
    key. *)
Lemma class_getitem_miss c a w k w1 :
  hashable a = true ->
  cache_lookup (c, a) (cache w) = None ->
  class_getitem is_collection_model TypeAdapter_new hashable c a w = (Ok k, w1) ->
  cache w1 = ((c, a), k) :: cache w.
Proof.
  intros Hh L. unfold class_getitem, tp_cache, lru_cached. rewrite Hh, L.
  destruct (meta_getitem is_collection_model TypeAdapter_new c a w)
    as [[r|e] w'] eqn:M.
  - cbn [fst snd]. intros H. inversion H; subst.
    destruct (meta_getitem_ok _ _ _ _ _ _ _ M) as [ad [_ ->]]. reflexivity.
  - destruct (meta_getitem_raise _ _ _ _ _ _ _ M) as [-> Hall].
    destruct e; cbn -[meta_getitem]; try (intros H; discriminate H).
    rewrite Hall. intros H; discriminate H.
Qed.

(** X23: the cache key of a union compares its members as a set and keeps
    the spelling's type: after [Container[Union[xs]]] missed the cache and
    built class [k], [Container[Union[ys]]] with the same members in any
    order is served [k] from the cache, while the entry does not serve the
    [X | Y] spelling ([lru_cache(typed=True)]). *)
Theorem X23_union_cache_key c xs ys w k w1 :
  hashable (AUnion xs) = true ->
  hashable (AUnion ys) = true ->
  incl xs ys -> incl ys xs ->
  cache_lookup (c, AUnion xs) (cache w) = None ->
  class_getitem is_collection_model TypeAdapter_new hashable c (AUnion xs) w = (Ok k, w1) ->
  class_getitem is_collection_model TypeAdapter_new hashable c (AUnion ys) w1 = (Ok k, w1) /\
  cache_lookup (c, AUnionType ys) (cache w1) = cache_lookup (c, AUnionType ys) (cache w).
Proof.
  intros Hx Hy Hxy Hyx L H.
  pose proof (class_getitem_miss c (AUnion xs) w k w1 Hx L H) as Hc.
  assert (Hs : annot_eqb (AUnion xs) (AUnion ys) = true).
  { cbn [annot_eqb]. apply andb_true_intro. split; apply forallb_forall.
    - intros x Hin. apply existsb_exists. exists x.
      split; [apply Hxy, Hin | apply annot_eqb_refl].
    - intros y Hin. apply existsb_exists. exists y.
      split; [apply Hyx, Hin | apply annot_eqb_refl]. }
  split.
  - unfold class_getitem, tp_cache, lru_cached. rewrite Hy, Hc.
    cbn [cache_lookup fst snd]. rewrite Nat.eqb_refl, Hs. reflexivity.
  - rewrite Hc. cbn [cache_lookup fst snd annot_type Nat.eqb].
    rewrite andb_false_r. reflexivity.
Qed.

End Meta.

End CacheExtras.

Module ExtraWitness.
Import PyModel Core PyList Sequence SequenceOps Mapping MappingOps Specialize
  Demo SpecDemo.
Open Scope Z_scope.

Lemma X1_witness :
  config_get (validate_assignment (model_config UncheckedUsersSequence))
    _DEFAULT_VALIDATE_ASSIGNMENT = false /\
  append demo_instancecheck demo_annot_str UncheckedUsersSequence (VInt 3) [user "a" 1]
    = (Ok tt, [user "a" 1; VInt 3]).
Proof.
  split; [reflexivity|].
  exact (proj1 (proj2 (MoreExtras.X1_unvalidated_mutations_store_raw
    demo_instancecheck demo_annot_str UncheckedUsersSequence 0 "k" (VInt 3)
    [user "a" 1] [] eq_refl))).
Defined.

Lemma X4_witness :
  Forall (fun t => exists c0 b, t = TClass c0 /\ demo_instancecheck c0 sub_user = Ok b)
    (get_types_from_annotation (annotation (__element__ UsersSequence))) /\
  (_validate_element_type demo_instancecheck demo_annot_str UsersSequence sub_user [LInt 0]
     = Ok tt <->
   exists c0, In (TClass c0) [TClass cls_User] /\
              (type_of sub_user = c0 \/ demo_instancecheck c0 sub_user = Ok true)).
Proof.
  assert (H : Forall (fun t => exists c0 b, t = TClass c0 /\
                                 demo_instancecheck c0 sub_user = Ok b)
                (get_types_from_annotation (annotation (__element__ UsersSequence))))
    by (simpl; constructor; [exists cls_User, true; split; reflexivity | constructor]).
  split; [exact H|].
  exact (proj1 (MoreExtras.X4_precheck_decided_by_isinstance demo_instancecheck
    demo_annot_str UsersSequence sub_user [LInt 0] H)).
Defined.

Lemma X5_witness :
  (_validate_sequence_element demo_instancecheck demo_annot_str UsersSequence
     (user "z" 9) (-1) = Ok (user "z" 9) /\
   - py_len [user "a" 1; user "b" 2] <= -1 < py_len [user "a" 1; user "b" 2]) /\
  exists r',
    setitem_int demo_instancecheck demo_annot_str UsersSequence (-1) (user "z" 9)
      [user "a" 1; user "b" 2] = (Ok tt, r') /\
    List.length r' = 2%nat /\
    fst (getitem_int (-1) r') = Ok (user "z" 9) /\
    (forall m, m <> 1%nat -> nth_error r' m = nth_error [user "a" 1; user "b" 2] m).
Proof.
  split; [split; [reflexivity | unfold py_len; simpl; lia]|].
  exact (SeqExtras.X5_setitem_then_getitem demo_instancecheck demo_annot_str UsersSequence
    (-1) (user "z" 9) (user "z" 9) [user "a" 1; user "b" 2] eq_refl
    ltac:(unfold py_len; simpl; lia)).
Defined.

Lemma X6_witness :
  (_validate_sequence_element demo_instancecheck demo_annot_str UsersSequence
     (user "z" 9) 5 = Ok (user "z" 9) /\
   (5 < - py_len [user "a" 1] \/ py_len [user "a" 1] <= 5)) /\
  setitem_int demo_instancecheck demo_annot_str UsersSequence 5 (user "z" 9) [user "a" 1]
    = (Raise IndexError, [user "a" 1]) /\
  getitem_int 5 [user "a" 1] = (Raise IndexError, [user "a" 1]) /\
  delitem_int 5 [user "a" 1] = (Raise IndexError, [user "a" 1]).
Proof.
  split; [split; [reflexivity | right; unfold py_len; simpl; lia]|].
  exact (SeqExtras.X6_index_error_out_of_range demo_instancecheck demo_annot_str
    UsersSequence 5 (user "z" 9) (user "z" 9) [user "a" 1] eq_refl
    ltac:(right; unfold py_len; simpl; lia)).
Defined.

Lemma X7_witness :
  _validate_sequence_element demo_instancecheck demo_annot_str UsersSequence
    (user "z" 9) 10 = Ok (user "z" 9) /\
  exists r',
    insert demo_instancecheck demo_annot_str UsersSequence 10 (user "z" 9)
      [user "a" 1; user "b" 2] = (Ok tt, r') /\
    List.length r' = 3%nat /\
    nth_error r' 2 = Some (user "z" 9) /\
    firstn 2 r' = [user "a" 1; user "b" 2] /\
    skipn 3 r' = [].
Proof.
  split; [reflexivity|].
  exact (SeqExtras.X7_insert_at_clamped_position demo_instancecheck demo_annot_str
    UsersSequence 10 (user "z" 9) (user "z" 9) [user "a" 1; user "b" 2] eq_refl).
Defined.

Lemma X8_witness :
  (_validate_sequence_element demo_instancecheck demo_annot_str UsersSequence
     (user "z" 9) 1 = Ok (user "z" 9) /\
   0 <= 1 <= py_len [user "a" 1; user "b" 2]) /\
  (insert demo_instancecheck demo_annot_str UsersSequence 1 (user "z" 9) ;;;
   delitem_int 1) [user "a" 1; user "b" 2] = (Ok tt, [user "a" 1; user "b" 2]).
Proof.
  split; [split; [reflexivity | unfold py_len; simpl; lia]|].
  exact (SeqExtras.X8_insert_then_delitem demo_instancecheck demo_annot_str UsersSequence
    1 (user "z" 9) (user "z" 9) [user "a" 1; user "b" 2] eq_refl
    ltac:(unfold py_len; simpl; lia)).
Defined.

Lemma X9_witness :
  - py_len [user "a" 1; user "b" 2] <= -1 < py_len [user "a" 1; user "b" 2] /\
  exists x r',
    nth_error [user "a" 1; user "b" 2] 1 = Some x /\
    delitem_int (-1) [user "a" 1; user "b" 2] = (Ok tt, r') /\
    [user "a" 1; user "b" 2] = firstn 1 r' ++ x :: skipn 1 r'.
Proof.
  split; [unfold py_len; simpl; lia|].
  exact (SeqExtras.X9_delitem_removes_one (-1) [user "a" 1; user "b" 2]
    ltac:(unfold py_len; simpl; lia)).
Defined.

Lemma X10_witness :
  ((1 <= 2 <= List.length [user "a" 1; user "b" 2; user "c" 3])%nat /\
   List.length [user "z" 9] = (2 - 1)%nat /\
   Forall2 (fun v v' => forall l,
              _validate_element demo_instancecheck demo_annot_str UsersSequence v l = Ok v')
     [user "z" 9] [user "z" 9]) /\
  setitem_slice demo_instancecheck demo_annot_str UsersSequence
    (mkSlice (Some 1) (Some 2) None) [user "z" 9]
    [user "a" 1; user "b" 2; user "c" 3]
  = (Ok tt, [user "a" 1; user "z" 9; user "c" 3]).
Proof.
  assert (H : Forall2 (fun v v' => forall l,
                _validate_element demo_instancecheck demo_annot_str UsersSequence v l = Ok v')
                [user "z" 9] [user "z" 9])
    by (constructor; [intros l; reflexivity | constructor]).
  split; [split; [simpl; lia | split; [reflexivity | exact H]]|].
  exact (SeqExtras.X10_contiguous_slice_assignment demo_instancecheck demo_annot_str
    UsersSequence 1 2 [user "z" 9] [user "z" 9]
    [user "a" 1; user "b" 2; user "c" 3] ltac:(simpl; lia) eq_refl H).
Defined.

Lemma X11_witness :
  (0 <= 5 /\ 0 <= 1 <= 5 /\ 0 <= 4 <= 5 /\ 0 < 2) /\
  _get_index_range 5 (mkSlice (Some 1) (Some 4) (Some 2))
    = slice_positions (mkSlice (Some 1) (Some 4) (Some 2)) 5.
Proof.
  split; [lia|].
  exact (SeqExtras.X11_index_range_matches_slice 5
    (mkSlice (Some 1) (Some 4) (Some 2)) ltac:(lia) ltac:(simpl; lia)
    ltac:(simpl; lia) ltac:(simpl; lia)).
Defined.

Lemma X14_witness :
  _validate_element demo_instancecheck demo_annot_str WeakUsersSequence (user_dict "n" 1)
    [LStr "k"] = Ok (user "n" 1) /\
  exists d',
    Mapping.setitem demo_instancecheck demo_annot_str WeakUsersSequence "k"
      (user_dict "n" 1) [("m", user "a" 2)] = (Ok tt, d') /\
    fst (getitem "k" d') = Ok (user "n" 1) /\
    (forall k', k' <> "k" -> dict_lookup d' k' = dict_lookup [("m", user "a" 2)] k').
Proof.
  split; [reflexivity|].
  exact (MapExtras.X14_mapping_setitem_then_getitem demo_instancecheck demo_annot_str
    WeakUsersSequence "k" (user_dict "n" 1) (user "n" 1) [("m", user "a" 2)]
    eq_refl).
Defined.

Lemma X15_witness :
  _validate_element demo_instancecheck demo_annot_str UsersSequence (user "z" 9)
    [LStr "k"] = Ok (user "z" 9) /\
  keys (snd (Mapping.setitem demo_instancecheck demo_annot_str UsersSequence "k"
               (user "z" 9) [("k", user "a" 1); ("m", user "b" 2)]))
    = ["k"; "m"] /\
  fst (map_len (snd (Mapping.setitem demo_instancecheck demo_annot_str UsersSequence "k"
                       (user "z" 9) [("k", user "a" 1); ("m", user "b" 2)])))
    = Ok 2%nat.
Proof.
  split; [reflexivity|].
  exact (MapExtras.X15_mapping_setitem_key_order demo_instancecheck demo_annot_str
    UsersSequence "k" (user "z" 9) (user "z" 9)
    [("k", user "a" 1); ("m", user "b" 2)] eq_refl).
Defined.


Lemma X17_witness :
  dict_lookup [("k", user "a" 1)] "z" = None /\
  getitem "z" [("k", user "a" 1)] = (Raise KeyError, [("k", user "a" 1)]) /\
  delitem "z" [("k", user "a" 1)] = (Raise KeyError, [("k", user "a" 1)]).
Proof.
  split; [reflexivity|].
  exact (MapExtras.X17_mapping_missing_key [("k", user "a" 1)] "z" eq_refl).
Defined.

Lemma X18_witness :
  (NoDup (keys [("k", user "a" 1); ("m", user "b" 2)]) /\
   dict_lookup [("k", user "a" 1); ("m", user "b" 2)] "k" = Some (user "a" 1)) /\
  exists d',
    delitem "k" [("k", user "a" 1); ("m", user "b" 2)] = (Ok tt, d') /\
    getitem "k" d' = (Raise KeyError, d') /\
    (forall k', k' <> "k" ->
       dict_lookup d' k' = dict_lookup [("k", user "a" 1); ("m", user "b" 2)] k') /\
    List.length d' = 1%nat.
Proof.
  assert (H : NoDup (keys [("k", user "a" 1); ("m", user "b" 2)])).
  { simpl. constructor; [simpl; intros [Heq|[]]; discriminate Heq|].
    constructor; [intros []|constructor]. }
  split; [split; [exact H | reflexivity]|].
  exact (MapExtras.X18_mapping_delitem_removes_key
    [("k", user "a" 1); ("m", user "b" 2)] "k" (user "a" 1) H eq_refl).
Defined.

Lemma X19_witness :
  NoDup (keys [("k", user "b" 2)]) /\
  dict_lookup (mapping_init_root (Some [("k", user "a" 1); ("m", user "c" 3)])
                 [("k", user "b" 2)]) "k" = Some (user "b" 2).
Proof.
  assert (H : NoDup (keys [("k", user "b" 2)]))
    by (simpl; constructor; [intros [] | constructor]).
  split; [exact H|].
  exact (MapExtras.X19_mapping_init_merges
    (Some [("k", user "a" 1); ("m", user "c" 3)]) [("k", user "b" 2)] "k" H).
Defined.

Lemma X21_witness :
  class_getitem (fun _ => false) demo_TypeAdapter_new demo_hashable 20%nat
    (AClass cls_User) demo_world
    = (Raise (TypeError "is not a BaseCollectionModel"), demo_world) /\
  demo_world = demo_world.
Proof.
  split; [reflexivity|].
  exact (CacheExtras.X21_failed_specialization_leaves_state (fun _ => false)
    demo_TypeAdapter_new demo_hashable 20%nat (AClass cls_User) demo_world
    (TypeError "is not a BaseCollectionModel") demo_world eq_refl).
Defined.

Lemma X12_witness :
  Forall (fun x => adapter (__element__ UsersSequence) x false false = inl x)
    [user "b" 3; user "a" 1] /\
  (fst (sort UsersSequence user_age false [user "b" 3; user "a" 1]) = Ok tt /\
   Permutation (snd (sort UsersSequence user_age false [user "b" 3; user "a" 1]))
     [user "b" 3; user "a" 1] /\
   Sorted (fun x y => if false then user_age y <= user_age x
                      else user_age x <= user_age y)
     (snd (sort UsersSequence user_age false [user "b" 3; user "a" 1]))) /\
  snd (sort UsersSequence user_age false [user "b" 3; user "a" 1])
    = [user "a" 1; user "b" 3].
Proof.
  assert (H : Forall (fun x => adapter (__element__ UsersSequence) x false false = inl x)
                [user "b" 3; user "a" 1]) by repeat constructor.
  split; [exact H|]. split; [|reflexivity].
  exact (MoreExtras.X12_sort_orders_by_key UsersSequence user_age false _ H).
Defined.

Lemma X13_witness :
  Forall (fun x => adapter (__element__ UsersSequence) x false false = inl x)
    [user "b" 3; user "c" 1; user "a" 3] /\
  filter (fun x => Z.eqb (user_age x) 3)
    (snd (sort UsersSequence user_age true [user "b" 3; user "c" 1; user "a" 3]))
  = filter (fun x => Z.eqb (user_age x) 3) [user "b" 3; user "c" 1; user "a" 3].
Proof.
  assert (H : Forall (fun x => adapter (__element__ UsersSequence) x false false = inl x)
                [user "b" 3; user "c" 1; user "a" 3]) by repeat constructor.
  split; [exact H|].
  exact (MoreExtras.X13_sort_is_stable UsersSequence user_age true _ 3 H).
Defined.

Lemma X20_witness :
  sl_step (mkSlice (Some 0) None None) <> Some 0 /\
  p_getitem_slice
    (mkPSeq (mkSeq UsersSequence [user "a" 1; user "b" 2]) false (VInt 0) (VStr "name"))
    (mkSlice (Some 0) None None) =
  Raise (TypeError "PersistentPydanticSequence.__init__() missing 2 required keyword-only arguments: 'persistence_db' and 'persistance_db_key'").
Proof.
  split; [discriminate|].
  exact (PersistExtras.X20_persistent_slice_raises
    (mkPSeq (mkSeq UsersSequence [user "a" 1; user "b" 2]) false (VInt 0) (VStr "name"))
    (mkSlice (Some 0) None None) ltac:(discriminate)).
Defined.

Lemma X22_witness :
  (config_get (validate_assignment (model_config UsersSequence))
     _DEFAULT_VALIDATE_ASSIGNMENT = true /\
   In (VInt 3) [user "a" 1; VInt 3] /\
   adapter (__element__ UsersSequence) (VInt 3) false false
     = inr [mkErr "model_type" [] (VInt 3) None]) /\
  exists es, sort UsersSequence user_age false [user "a" 1; VInt 3] =
    (Raise (ValidationError "UsersSequence" es), [user "a" 1; VInt 3]).
Proof.
  split; [split; [reflexivity | split; [simpl; auto | reflexivity]]|].
  exact (MoreExtras.X22_sort_revalidation_fails UsersSequence user_age false
    [user "a" 1; VInt 3] (VInt 3) [mkErr "model_type" [] (VInt 3) None]
    eq_refl (or_intror (or_introl eq_refl)) eq_refl).
Defined.

Lemma X23_witness :
  (demo_hashable (AUnion [AClass cls_User; AClass cls_SubUser]) = true /\
   demo_hashable (AUnion [AClass cls_SubUser; AClass cls_User]) = true /\
   incl [AClass cls_User; AClass cls_SubUser] [AClass cls_SubUser; AClass cls_User] /\
   incl [AClass cls_SubUser; AClass cls_User] [AClass cls_User; AClass cls_SubUser] /\
   cache_lookup (20%nat, AUnion [AClass cls_User; AClass cls_SubUser])
     (cache demo_world) = None) /\
  let w1 := snd (class_getitem demo_is_collection_model demo_TypeAdapter_new
                   demo_hashable 20%nat (AUnion [AClass cls_User; AClass cls_SubUser])
                   demo_world) in
  class_getitem demo_is_collection_model demo_TypeAdapter_new demo_hashable 20%nat
    (AUnion [AClass cls_SubUser; AClass cls_User]) w1 = (Ok 101%nat, w1) /\
  cache_lookup (20%nat, AUnionType [AClass cls_SubUser; AClass cls_User]) (cache w1)
  = cache_lookup (20%nat, AUnionType [AClass cls_SubUser; AClass cls_User])
      (cache demo_world).
Proof.
  assert (Hi1 : incl [AClass cls_User; AClass cls_SubUser]
                  [AClass cls_SubUser; AClass cls_User])
    by (intros x [<-|[<-|[]]]; simpl; auto).
  assert (Hi2 : incl [AClass cls_SubUser; AClass cls_User]
                  [AClass cls_User; AClass cls_SubUser])
    by (intros x [<-|[<-|[]]]; simpl; auto).
  split; [repeat split; assumption|].
  exact (CacheExtras.X23_union_cache_key demo_is_collection_model
    demo_TypeAdapter_new demo_hashable 20%nat [AClass cls_User; AClass cls_SubUser]
    [AClass cls_SubUser; AClass cls_User] demo_world 101%nat
    (snd (class_getitem demo_is_collection_model demo_TypeAdapter_new
            demo_hashable 20%nat (AUnion [AClass cls_User; AClass cls_SubUser])
            demo_world))
    eq_refl eq_refl Hi1 Hi2 eq_refl eq_refl).
Defined.

End ExtraWitness.
